(** * Thumbnail generation pipeline: a shallow embedding

    The development follows the three source files of the repository:
    - [types.ts]                    (module [Types]),
    - [services/geminiService.ts]   (module [GeminiService]),
    - [App.tsx]                     (module [App]; only the state and the two
      handlers [renderImageOnly] and [handleGenerate]).

    Module [JS] gives the fragment of the JavaScript runtime the code relies
    on (values produced by [JSON.parse], truthiness, [||], [?.], template
    literal conversion, [Array.isArray], [join], [split], [includes],
    [trim], thrown errors), and module [GenAI] the request and response
    shapes of the [@google/genai] client, which the code only consumes. *)

From Stdlib Require Import String Ascii List Bool Arith ZArith Lia.
From Stdlib Require Import DecimalString Permutation.
Import ListNotations.

Set Warnings "-register-all".

Open Scope string_scope.
Open Scope list_scope.

(** ** The JavaScript fragment *)

Module JS.

(** The double quote and the line feed, which cannot be written inside a
    literal here. *)
Definition dq : string := String (ascii_of_nat 34) EmptyString.
Definition nl : string := String (ascii_of_nat 10) EmptyString.

(** Strings are sequences of code units; the embedding covers the code
    units below 256. *)

(** [String.prototype.includes]. *)
Fixpoint includes (s search : string) : bool :=
  if String.prefix search s then true
  else match s with
       | EmptyString => false
       | String _ rest => includes rest search
       end.

(** [String.prototype.split] with a separator of one code unit.  The result
    always has at least one segment. *)
Fixpoint split (s : string) (sep : ascii) : list string :=
  match s with
  | EmptyString => [EmptyString]
  | String c rest =>
      if Ascii.eqb c sep then EmptyString :: split rest sep
      else match split rest sep with
           | seg :: segs => String c seg :: segs
           | [] => [String c EmptyString]
           end
  end.

(** White space as [trim] sees it, among the code units below 256: TAB, LF,
    VT, FF, CR, SP and NBSP. *)
Definition isWhiteSpace (c : ascii) : bool :=
  let n := nat_of_ascii c in
  ((9 <=? n) && (n <=? 13) || (n =? 32) || (n =? 160))%nat.

Fixpoint trimStart (s : string) : string :=
  match s with
  | EmptyString => EmptyString
  | String c rest => if isWhiteSpace c then trimStart rest else s
  end.

Fixpoint trimEnd (s : string) : string :=
  match s with
  | EmptyString => EmptyString
  | String c rest =>
      match trimEnd rest with
      | EmptyString => if isWhiteSpace c then EmptyString else String c EmptyString
      | kept => String c kept
      end
  end.

Definition trim (s : string) : string := trimEnd (trimStart s).

(** Decimal rendering of an array length. *)
Definition string_of_nat (n : nat) : string :=
  NilEmpty.string_of_uint (Nat.to_uint n).

(** Values that [JSON.parse] can produce, and [undefined] for absent
    properties.  A number is kept as the two observations the program can
    make of it: whether it is non-zero (its truthiness) and its string
    conversion; no arithmetic is ever done on a value. *)
Inductive JsValue : Type :=
| JUndefined
| JNull
| JBool (b : bool)
| JNumber (nonzero : bool) (repr : string)
| JString (s : string)
| JArray (elements : list JsValue)
| JObject (fields : list (string * JsValue)).

(** Thrown values: error objects with their [name] and [message]. *)
Record Exn : Type := mkExn { name : string; message : string }.

Definition Error (msg : string) : Exn := mkExn "Error" msg.
Definition TypeError (msg : string) : Exn := mkExn "TypeError" msg.

(** A computation that returns a value or throws. *)
Inductive Outcome (A : Type) : Type :=
| Resolved (value : A)
| Rejected (reason : Exn).
Arguments Resolved {A} value.
Arguments Rejected {A} reason.

Definition bind {A B : Type} (m : Outcome A) (k : A -> Outcome B) : Outcome B :=
  match m with
  | Resolved a => k a
  | Rejected e => Rejected e
  end.

(** [try { body } catch (error) { handler }]. *)
Definition tryCatch {A : Type} (body : Outcome A) (handler : Exn -> Outcome A)
  : Outcome A :=
  match body with
  | Resolved a => Resolved a
  | Rejected e => handler e
  end.

Definition isNullish (v : JsValue) : bool :=
  match v with
  | JUndefined | JNull => true
  | _ => false
  end.

(** Truthiness, as [!], [||] and [?:] test it. *)
Definition truthy (v : JsValue) : bool :=
  match v with
  | JUndefined | JNull => false
  | JBool b => b
  | JNumber nonzero _ => nonzero
  | JString s => negb (String.eqb s EmptyString)
  | JArray _ | JObject _ => true
  end.

(** [a || b] on values, and on strings. *)
Definition or (a b : JsValue) : JsValue := if truthy a then a else b.

Definition orString (a b : string) : string :=
  if String.eqb a EmptyString then b else a.

(** [a || b] where [a] is a string that may be [undefined]. *)
Definition orOptString (a : option string) (b : string) : string :=
  match a with
  | Some s => orString s b
  | None => b
  end.

Fixpoint lookup (fields : list (string * JsValue)) (key : string) : JsValue :=
  match fields with
  | [] => JUndefined
  | (k, v) :: rest => if String.eqb k key then v else lookup rest key
  end.

Definition typeName (v : JsValue) : string :=
  match v with
  | JNull => "null"
  | _ => "undefined"
  end.

(** The message of the error raised by a property read on [null] or
    [undefined] (the wording of V8). *)
Definition cannotRead (v : JsValue) (key : string) : string :=
  "Cannot read properties of " ++ typeName v ++ " (reading '" ++ key ++ "')".

(** [v.key].  Own properties only: none of the keys the program reads is
    provided by a prototype. *)
Definition member (v : JsValue) (key : string) : Outcome JsValue :=
  match v with
  | JUndefined | JNull => Rejected (TypeError (cannotRead v key))
  | JObject fields => Resolved (lookup fields key)
  | JBool _ | JNumber _ _ | JString _ | JArray _ => Resolved JUndefined
  end.

(** [v?.key]: never throws. *)
Definition optMember (v : JsValue) (key : string) : JsValue :=
  match v with
  | JObject fields => lookup fields key
  | _ => JUndefined
  end.

Definition isArray (v : JsValue) : bool :=
  match v with
  | JArray _ => true
  | _ => false
  end.

Definition elementsOf (v : JsValue) : list JsValue :=
  match v with
  | JArray l => l
  | _ => []
  end.

(** Whether an object has an own property [key]. *)
Fixpoint hasOwn (fields : list (string * JsValue)) (key : string) : bool :=
  match fields with
  | [] => false
  | (k, _) :: rest => if String.eqb k key then true else hasOwn rest key
  end.

(** The error of a conversion to a primitive that finds no callable
    [toString] or [valueOf] yielding one (the wording of V8). *)
Definition CANNOT_CONVERT : Exn :=
  TypeError "Cannot convert object to primitive value".

(** The string conversion of template literals and of [join].  An object
    is converted by its [toString]: the inherited one gives
    [[object Object]]; an own property [toString] of a parsed object is
    never callable, and neither an own nor the inherited [valueOf] yields a
    primitive, so the conversion throws.  An array is converted by
    [join(",")], which converts its elements in order. *)
Fixpoint ToString (v : JsValue) : Outcome string :=
  match v with
  | JUndefined => Resolved "undefined"
  | JNull => Resolved "null"
  | JBool true => Resolved "true"
  | JBool false => Resolved "false"
  | JNumber _ repr => Resolved repr
  | JString s => Resolved s
  | JArray l =>
      bind ((fix each (l : list JsValue) : Outcome (list string) :=
               match l with
               | [] => Resolved []
               | x :: rest =>
                   bind (match x with
                         | JUndefined | JNull => Resolved EmptyString
                         | _ => ToString x
                         end)
                        (fun first =>
                           bind (each rest) (fun others => Resolved (first :: others)))
               end) l)
           (fun texts => Resolved (String.concat "," texts))
  | JObject fields =>
      if hasOwn fields "toString" then Rejected CANNOT_CONVERT
      else Resolved "[object Object]"
  end.

Definition joinElement (v : JsValue) : Outcome string :=
  match v with
  | JUndefined | JNull => Resolved EmptyString
  | _ => ToString v
  end.

(** The elements of an array converted for [join], in order. *)
Fixpoint joinElements (l : list JsValue) : Outcome (list string) :=
  match l with
  | [] => Resolved []
  | x :: rest =>
      bind (joinElement x)
           (fun first =>
              bind (joinElements rest) (fun others => Resolved (first :: others)))
  end.

(** [Array.prototype.join]. *)
Definition join (l : list JsValue) (sep : string) : Outcome string :=
  bind (joinElements l) (fun texts => Resolved (String.concat sep texts)).

End JS.

(** ** The client library: request and response shapes *)

Module GenAI.

Record Blob : Type := mkBlob { data : option string; mimeType : string }.

Record Part : Type := mkPart { text : option string; inlineData : option Blob }.

Record Content : Type := mkContent { parts : option (list Part) }.

Record Candidate : Type := mkCandidate { content : option Content }.

(** Response schema descriptors ([Type.STRING], [Type.ARRAY], [Type.OBJECT]). *)
Inductive Schema : Type :=
| STRING
| ARRAY (items : Schema)
| OBJECT (properties : list (string * Schema)) (required : list string).

Inductive Config : Type :=
| JsonConfig (responseMimeType : string) (responseSchema : Schema)
| ImageConfig (aspectRatio : string).

Record GenerateContentParameters : Type := mkParams {
  model : string;
  contents : Content;
  config : Config
}.

Module Response.
Record t : Type := mk { candidates : option (list Candidate); text : option string }.
End Response.

End GenAI.

(** ** types.ts *)

Module Types.

Inductive Emotion : Type := SHOCK | CURIOSITY | EXCITEMENT | FEAR | URGENCY.

Definition Emotion_value (e : Emotion) : string :=
  match e with
  | SHOCK => "Shock"
  | CURIOSITY => "Curiosity"
  | EXCITEMENT => "Excitement"
  | FEAR => "Fear"
  | URGENCY => "Urgency"
  end.

Inductive AspectRatio : Type := R16_9 | R9_16 | R1_1 | R4_3.

Definition AspectRatio_value (r : AspectRatio) : string :=
  match r with
  | R16_9 => "16:9"
  | R9_16 => "9:16"
  | R1_1 => "1:1"
  | R4_3 => "4:3"
  end.

Record ThumbnailImage : Type := mkImage { data : string; mimeType : string }.

Record ThumbnailRequest : Type := mkRequest {
  title : string;
  niche : string;
  emotion : Emotion;
  ratio : AspectRatio;
  subjectDescription : option string;
  subjectImages : list ThumbnailImage
}.

(** [ThumbnailDesign] is what [JSON.parse] returned: at run time any value. *)
Definition ThumbnailDesign : Type := JS.JsValue.

Record GenerationResult : Type := mkResult {
  strategy : ThumbnailDesign;
  imageUrl : option string
}.

End Types.

(** ** services/geminiService.ts *)

Module GeminiService.

Import JS.
Import Types.

(** The requests issued to the provider so far, oldest first. *)
Definition Log : Type := list GenAI.GenerateContentParameters.

(** An asynchronous computation: it may issue requests and then resolves or
    rejects. *)
Definition Async (A : Type) : Type := Log -> Outcome A * Log.

Definition pure {A : Type} (o : Outcome A) : Async A := fun log => (o, log).

Definition await {A B : Type} (m : Async A) (k : A -> Async B) : Async B :=
  fun log =>
    match m log with
    | (Resolved a, log') => k a log'
    | (Rejected e, log') => (Rejected e, log')
    end.

Definition catch {A : Type} (body : Async A) (handler : Exn -> Async A)
  : Async A :=
  fun log =>
    match body log with
    | (Resolved a, log') => (Resolved a, log')
    | (Rejected e, log') => handler e log'
    end.

Notation "x <- m ;; k" := (bind m (fun x => k))
  (at level 61, m at next level, right associativity).
Notation "x <~ m ;; k" := (await m (fun x => k))
  (at level 61, m at next level, right associativity).

Definition REASONING_MODEL : string := "gemini-3-pro-preview".
Definition IMAGE_MODEL : string := "gemini-2.5-flash-image".

(** The part pushed for one reference image: [img.data.split(',')[1]] with
    the declared media type. *)
Definition inlinePart (img : ThumbnailImage) : GenAI.Part :=
  GenAI.mkPart None
    (Some (GenAI.mkBlob (nth_error (split (data img) ",") 1) (mimeType img))).

(** [subjectImages.forEach(img => parts.push(...))]. *)
Definition pushImages (parts : list GenAI.Part) (subjectImages : list ThumbnailImage)
  : list GenAI.Part :=
  fold_left (fun acc img => acc ++ [inlinePart img]) subjectImages parts.

Definition strategyText (req : ThumbnailRequest) : string :=
  nl
    ++ "        ROLE: Professional YouTube Thumbnail Design AI (High-CTR specialist)." ++ nl
    ++ "        OBJECTIVE: Design a viral, click-optimized concept for " ++ AspectRatio_value (ratio req) ++ " aspect ratio." ++ nl
    ++ "        " ++ nl
    ++ "        CONTEXT:" ++ nl
    ++ "        Title: " ++ dq ++ title req ++ dq ++ nl
    ++ "        Niche: " ++ dq ++ niche req ++ dq ++ nl
    ++ "        Emotion: " ++ dq ++ Emotion_value (emotion req) ++ dq ++ nl
    ++ "        Subject: " ++ dq ++ orOptString (subjectDescription req) "Not specified" ++ dq ++ nl
    ++ nl
    ++ "        CORE RULES:" ++ nl
    ++ "        1. Emotionally intense focal point." ++ nl
    ++ "        2. Simple (1-2 focal points max)." ++ nl
    ++ "        3. Bold typography (3-6 words MAX, capital letters)." ++ nl
    ++ "        4. High contrast colors." ++ nl
    ++ "        5. Respect the " ++ AspectRatio_value (ratio req) ++ " aspect ratio in layout instructions." ++ nl
    ++ nl
    ++ "        IMPORTANT: I am providing " ++ string_of_nat (List.length (subjectImages req)) ++ " reference image(s). Use them to understand the look and feel of the subject(s)." ++ nl
    ++ nl
    ++ "        Return a JSON object:" ++ nl
    ++ "        {" ++ nl
    ++ "          " ++ dq ++ "concept" ++ dq ++ ": { " ++ dq ++ "idea" ++ dq ++ ": " ++ dq ++ "one clear visual idea" ++ dq ++ ", " ++ dq ++ "hook" ++ dq ++ ": " ++ dq ++ "emotional hook explanation" ++ dq ++ " }," ++ nl
    ++ "          " ++ dq ++ "mainText" ++ dq ++ ": " ++ dq ++ "3-6 WORDS MAX, ALL CAPS" ++ dq ++ "," ++ nl
    ++ "          " ++ dq ++ "visualElements" ++ dq ++ ": { " ++ nl
    ++ "            " ++ dq ++ "expression" ++ dq ++ ": " ++ dq ++ "shocked face / excited / etc" ++ dq ++ ", " ++ nl
    ++ "            " ++ dq ++ "objects" ++ dq ++ ": [" ++ dq ++ "primary object" ++ dq ++ ", " ++ dq ++ "accent object" ++ dq ++ "], " ++ nl
    ++ "            " ++ dq ++ "directionalElements" ++ dq ++ ": [" ++ dq ++ "red arrow" ++ dq ++ ", " ++ dq ++ "yellow circle" ++ dq ++ "], " ++ nl
    ++ "            " ++ dq ++ "backgroundStyle" ++ dq ++ ": " ++ dq ++ "gradient / blurred office / etc" ++ dq ++ " " ++ nl
    ++ "          }," ++ nl
    ++ "          " ++ dq ++ "colorPalette" ++ dq ++ ": { " ++ dq ++ "primary" ++ dq ++ ": " ++ dq ++ "CSS color" ++ dq ++ ", " ++ dq ++ "accent" ++ dq ++ ": " ++ dq ++ "CSS color" ++ dq ++ ", " ++ dq ++ "text" ++ dq ++ ": " ++ dq ++ "CSS color" ++ dq ++ ", " ++ dq ++ "background" ++ dq ++ ": " ++ dq ++ "CSS color" ++ dq ++ " }," ++ nl
    ++ "          " ++ dq ++ "layoutInstructions" ++ dq ++ ": { " ++ nl
    ++ "            " ++ dq ++ "textPlacement" ++ dq ++ ": " ++ dq ++ "left/right/center" ++ dq ++ ", " ++ nl
    ++ "            " ++ dq ++ "subjectPlacement" ++ dq ++ ": " ++ dq ++ "opposite to text" ++ dq ++ ", " ++ nl
    ++ "            " ++ dq ++ "arrowDirections" ++ dq ++ ": [" ++ dq ++ "towards text" ++ dq ++ ", " ++ dq ++ "towards face" ++ dq ++ "], " ++ nl
    ++ "            " ++ dq ++ "negativeSpace" ++ dq ++ ": " ++ dq ++ "area to keep clear" ++ dq ++ " " ++ nl
    ++ "          }" ++ nl
    ++ "        }" ++ nl
    ++ "      ".

Definition strategySchema : GenAI.Schema :=
  GenAI.OBJECT
    [ ("concept",
       GenAI.OBJECT [("idea", GenAI.STRING); ("hook", GenAI.STRING)] []);
      ("mainText", GenAI.STRING);
      ("visualElements",
       GenAI.OBJECT
         [ ("expression", GenAI.STRING);
           ("objects", GenAI.ARRAY GenAI.STRING);
           ("directionalElements", GenAI.ARRAY GenAI.STRING);
           ("backgroundStyle", GenAI.STRING) ] []);
      ("colorPalette",
       GenAI.OBJECT
         [ ("primary", GenAI.STRING); ("accent", GenAI.STRING);
           ("text", GenAI.STRING); ("background", GenAI.STRING) ] []);
      ("layoutInstructions",
       GenAI.OBJECT
         [ ("textPlacement", GenAI.STRING);
           ("subjectPlacement", GenAI.STRING);
           ("arrowDirections", GenAI.ARRAY GenAI.STRING);
           ("negativeSpace", GenAI.STRING) ] []) ]
    ["concept"; "mainText"; "visualElements"; "colorPalette";
     "layoutInstructions"].

Definition strategyRequest (req : ThumbnailRequest) : GenAI.GenerateContentParameters :=
  let textPart := GenAI.mkPart (Some (strategyText req)) None in
  let parts := pushImages [textPart] (subjectImages req) in
  GenAI.mkParams REASONING_MODEL (GenAI.mkContent (Some parts))
    (GenAI.JsonConfig "application/json" strategySchema).

(** [strategy.K?.sub]. *)
Definition chain (strategy : ThumbnailDesign) (key sub : string) : Outcome JsValue :=
  inner <- member strategy key ;;
  Resolved (optMember inner sub).

(** Lines 118 and 119: [Array.isArray(strategy.visualElements?.K) ?
    strategy.visualElements.K : []]. *)
Definition arrayOrEmpty (strategy : ThumbnailDesign) (key : string)
  : Outcome (list JsValue) :=
  probe <- chain strategy "visualElements" key ;;
  if isArray probe
  then ve <- member strategy "visualElements" ;;
       arr <- member ve key ;;
       Resolved (elementsOf arr)
  else Resolved [].

Definition REFERENCE_INSTRUCTION : string :=
  "Use the provided reference image(s) to accurately represent the person or subject.".

(** Lines 121 to 132: the text of the template literal, over its ten
    substitutions once converted to strings. *)
Definition promptTemplate
    (ratio expression idea props mainText textPlacement primary accent
       directional backgroundStyle : string)
  : string :=
  nl
    ++ "        Viral " ++ ratio ++ " YouTube/Social Media Thumbnail. High CTR style." ++ nl
    ++ "        Subject: " ++ expression ++ "." ++ nl
    ++ "        Focus: " ++ idea ++ "." ++ nl
    ++ "        Props: " ++ props ++ "." ++ nl
    ++ "        Text: Giant 3D bold text saying " ++ dq ++ mainText ++ dq ++ " placed at " ++ textPlacement ++ "." ++ nl
    ++ "        Aesthetics: Extremely high contrast, vibrant " ++ primary ++ " and " ++ accent ++ " colors. " ++ nl
    ++ "        Glow effects, thick outlines, directional " ++ directional ++ "." ++ nl
    ++ "        Background: " ++ backgroundStyle ++ "." ++ nl
    ++ "        Masterpiece, 4k, hyper-detailed, MrBeast aesthetic." ++ nl
    ++ "        " ++ REFERENCE_INSTRUCTION ++ nl
    ++ "      ".

(** [${strategy.K?.sub || 'fallback'}]: the read, the default, then the
    conversion to a string. *)
Definition substitute (strategy : ThumbnailDesign) (key sub fallback : string)
  : Outcome string :=
  v <- chain strategy key sub ;;
  ToString (or v (JString fallback)).

(** [${array.join(", ") || 'fallback'}]. *)
Definition joined (array : list JsValue) (fallback : string) : Outcome string :=
  text <- join array ", " ;;
  Resolved (orString text fallback).

(** Lines 118 to 132: the two coercions, then the substitutions of the
    template, each evaluated and converted in the order of the text.
    Every read of [strategy.K] throws when [strategy] is [null] or
    [undefined], and a conversion throws on an object that has an own
    [toString]. *)
Definition promptText (strategy : ThumbnailDesign) (ratio : string) : Outcome string :=
  objects <- arrayOrEmpty strategy "objects" ;;
  directionalElements <- arrayOrEmpty strategy "directionalElements" ;;
  expression <- substitute strategy "visualElements" "expression" "person" ;;
  idea <- substitute strategy "concept" "idea" "intense scene" ;;
  props <- joined objects "none" ;;
  mainText <- (m <- member strategy "mainText" ;;
               ToString (or m (JString EmptyString))) ;;
  textPlacement <- substitute strategy "layoutInstructions" "textPlacement" "center" ;;
  primary <- substitute strategy "colorPalette" "primary" "red" ;;
  accent <- substitute strategy "colorPalette" "accent" "yellow" ;;
  directional <- joined directionalElements "arrows" ;;
  backgroundStyle <-
    substitute strategy "visualElements" "backgroundStyle" "vibrant gradient" ;;
  Resolved (promptTemplate ratio expression idea props mainText textPlacement
              primary accent directional backgroundStyle).

Definition imageRequest (promptText ratio : string) (subjectImages : list ThumbnailImage)
  : GenAI.GenerateContentParameters :=
  let parts := pushImages [GenAI.mkPart (Some promptText) None] subjectImages in
  GenAI.mkParams IMAGE_MODEL (GenAI.mkContent (Some parts)) (GenAI.ImageConfig ratio).

(** [response.candidates?.[0]?.content?.parts]. *)
Definition firstCandidateParts (response : GenAI.Response.t) : option (list GenAI.Part) :=
  match GenAI.Response.candidates response with
  | None => None
  | Some cs =>
      match nth_error cs 0 with
      | None => None
      | Some c =>
          match GenAI.content c with
          | None => None
          | Some ct => GenAI.parts ct
          end
      end
  end.

Definition EMPTY_RESPONSE : Exn :=
  Error "Empty image response. This usually indicates safety filter intervention.".
Definition NO_IMAGE_DATA : Exn :=
  Error "No image data returned from rendering engine.".
Definition SAFETY_BLOCK : Exn :=
  Error "Safety Block: The content or subject image triggered safety filters. Try a different concept.".

Definition DATA_URL_PREFIX : string := "data:image/png;base64,".

(** A string that may be [undefined], inside a template literal. *)
Definition interpolate (s : option string) : string :=
  match s with
  | Some v => v
  | None => "undefined"
  end.

(** Lines 158 to 164: the loop over the parts, then the throw. *)
Fixpoint scanParts (parts : list GenAI.Part) : Outcome string :=
  match parts with
  | [] => Rejected NO_IMAGE_DATA
  | part :: rest =>
      match GenAI.inlineData part with
      | Some blob => Resolved (DATA_URL_PREFIX ++ interpolate (GenAI.data blob))%string
      | None => scanParts rest
      end
  end.

(** Lines 154 to 164. *)
Definition extractImage (response : GenAI.Response.t) : Outcome string :=
  match firstCandidateParts response with
  | None => Rejected EMPTY_RESPONSE
  | Some parts => scanParts parts
  end.

(** Lines 165 to 170: the [catch] clause. *)
Definition onRenderError (error : Exn) : Outcome string :=
  if includes (message error) "SAFETY" then Rejected SAFETY_BLOCK
  else Rejected error.

Section Service.

(** [this.ai.models.generateContent]: the provider's answer may depend on
    the requests issued before, so that two identical requests can be
    answered differently. *)
Variable generateContent :
  Log -> GenAI.GenerateContentParameters -> Outcome GenAI.Response.t.

(** [JSON.parse]. *)
Variable JSON_parse : string -> Outcome JsValue.

Definition models_generateContent (params : GenAI.GenerateContentParameters)
  : Async GenAI.Response.t :=
  fun log => (generateContent log params, log ++ [params]).

(** [response.text.trim()]. *)
Definition trimmedText (response : GenAI.Response.t) : Outcome string :=
  match GenAI.Response.text response with
  | Some t => Resolved (trim t)
  | None => Rejected (TypeError (cannotRead JUndefined "trim"))
  end.

Definition generateStrategy (req : ThumbnailRequest) : Async ThumbnailDesign :=
  response <~ models_generateContent (strategyRequest req) ;;
  pure (t <- trimmedText response ;; JSON_parse t).

(** The [try] block of [generateThumbnailImage]. *)
Definition renderBody (strategy : ThumbnailDesign) (ratio : string)
    (subjectImages : list ThumbnailImage) : Async string :=
  promptText <~ pure (promptText strategy ratio) ;;
  response <~ models_generateContent (imageRequest promptText ratio subjectImages) ;;
  pure (extractImage response).

Definition generateThumbnailImage (strategy : ThumbnailDesign) (ratio : string)
    (subjectImages : list ThumbnailImage) : Async string :=
  catch (renderBody strategy ratio subjectImages)
        (fun error => pure (onRenderError error)).

End Service.

End GeminiService.

(** ** App.tsx: the orchestrator *)

Module App.

Import JS.
Import Types.
Import GeminiService.

Inductive LoadingPhase : Type := idle | strategizing | rendering.

(** The three [useState] cells the handlers write, and the form they read. *)
Record State : Type := mkState {
  loadingPhase : LoadingPhase;
  result : option GenerationResult;
  error : option string;
  form : ThumbnailRequest
}.

Definition setLoadingPhase (p : LoadingPhase) (st : State) : State :=
  mkState p (result st) (error st) (form st).

(** [setResult] with an updater function. *)
Definition setResult (update : option GenerationResult -> option GenerationResult)
    (st : State) : State :=
  mkState (loadingPhase st) (update (result st)) (error st) (form st).

Definition setError (e : option string) (st : State) : State :=
  mkState (loadingPhase st) (result st) e (form st).

(** [!s] for a string. *)
Definition isEmpty (s : string) : bool := String.eqb s EmptyString.

Definition VALIDATION_MESSAGE : string := "Please fill in the title and niche.".
Definition RENDER_FALLBACK : string := "Rendering hit a snag. Retrying often fixes this.".
Definition STRATEGY_FALLBACK : string := "Failed to generate strategy.".

(** [prev => prev ? { ...prev, imageUrl } : { strategy, imageUrl }]. *)
Definition attachImage (strategy : ThumbnailDesign) (url : string)
    (prev : option GenerationResult) : option GenerationResult :=
  match prev with
  | Some p => Some (mkResult (Types.strategy p) (Some url))
  | None => Some (mkResult strategy (Some url))
  end.

Section Handlers.

Variable generateContent :
  Log -> GenAI.GenerateContentParameters -> Outcome GenAI.Response.t.
Variable JSON_parse : string -> Outcome JsValue.

(** A handler runs on the state and the request log and leaves both
    updated. *)
Definition renderImageOnly (strategy : ThumbnailDesign) (st : State) (log : Log)
  : State * Log :=
  let st := setLoadingPhase rendering st in
  let st := setError None st in
  let (outcome, log') :=
    generateThumbnailImage generateContent strategy
      (AspectRatio_value (ratio (form st))) (subjectImages (form st)) log in
  let st :=
    match outcome with
    | Resolved url => setResult (attachImage strategy url) st
    | Rejected err => setError (Some (orString (message err) RENDER_FALLBACK)) st
    end in
  (setLoadingPhase idle st, log').

Definition handleGenerate (st : State) (log : Log) : State * Log :=
  if isEmpty (title (form st)) || isEmpty (niche (form st))
  then (setError (Some VALIDATION_MESSAGE) st, log)
  else
    let st := setResult (fun _ => None) st in
    let st := setLoadingPhase strategizing st in
    let st := setError None st in
    match generateStrategy generateContent JSON_parse (form st) log with
    | (Resolved strategy, log') =>
        let st := setResult (fun _ => Some (mkResult strategy None)) st in
        renderImageOnly strategy st log'
    | (Rejected err, log') =>
        let st := setError (Some (orString (message err) STRATEGY_FALLBACK)) st in
        (setLoadingPhase idle st, log')
    end.

(** The [Retry Rendering] button pressed [n] times on the same strategy. *)
Fixpoint reRender (n : nat) (strategy : ThumbnailDesign) (st : State) (log : Log)
  : State * Log :=
  match n with
  | O => (st, log)
  | S k => let (st', log') := renderImageOnly strategy st log in
           reRender k strategy st' log'
  end.

End Handlers.

End App.

(** ** Observations used to state the properties *)

Module Observe.

Import JS.
Import Types.
Import GeminiService.

(** The prompt carried by a request: the text of its first part. *)
Definition sentPrompt (params : GenAI.GenerateContentParameters) : option string :=
  match GenAI.parts (GenAI.contents params) with
  | Some (first :: _) => GenAI.text first
  | _ => None
  end.

Definition sentParts (params : GenAI.GenerateContentParameters) : list GenAI.Part :=
  match GenAI.parts (GenAI.contents params) with
  | Some ps => ps
  | None => []
  end.

Definition mentionsReferences (params : GenAI.GenerateContentParameters) : bool :=
  match sentPrompt params with
  | Some p => includes p REFERENCE_INSTRUCTION
  | None => false
  end.

(** The prompt the renderer builds for a strategy, as it leaves in the
    request; [None] when the prompt could not be built. *)
Definition renderPrompt (strategy : ThumbnailDesign) (ratio : string)
    (subjectImages : list ThumbnailImage) : option string :=
  match promptText strategy ratio with
  | Resolved p => sentPrompt (imageRequest p ratio subjectImages)
  | Rejected _ => None
  end.

Definition promptIncludes (strategy : ThumbnailDesign) (ratio : string)
    (subjectImages : list ThumbnailImage) (search : string) : bool :=
  match renderPrompt strategy ratio subjectImages with
  | Some p => includes p search
  | None => false
  end.

(** The value read at [strategy.K?.sub] when the read does not throw. *)
Definition nested (strategy : ThumbnailDesign) (key sub : string) : JsValue :=
  optMember (optMember strategy key) sub.

(** The value read at [strategy.visualElements?.K]. *)
Definition visualElement (strategy : ThumbnailDesign) (key : string) : JsValue :=
  nested strategy "visualElements" key.

(** A value with its default, converted: [${v || 'fallback'}]. *)
Definition shown (v : JsValue) (fallback : string) : Outcome string :=
  ToString (or v (JString fallback)).

(** The prompt computation of a strategy on which no read throws, from the
    two arrays taken for the props and for the directional cues. *)
Definition promptOf (strategy : ThumbnailDesign) (ratio : string)
    (objects directionalElements : list JsValue) : Outcome string :=
  expression <- shown (nested strategy "visualElements" "expression") "person" ;;
  idea <- shown (nested strategy "concept" "idea") "intense scene" ;;
  props <- joined objects "none" ;;
  mainText <- shown (optMember strategy "mainText") EmptyString ;;
  textPlacement <- shown (nested strategy "layoutInstructions" "textPlacement") "center" ;;
  primary <- shown (nested strategy "colorPalette" "primary") "red" ;;
  accent <- shown (nested strategy "colorPalette" "accent") "yellow" ;;
  directional <- joined directionalElements "arrows" ;;
  backgroundStyle <-
    shown (nested strategy "visualElements" "backgroundStyle") "vibrant gradient" ;;
  Resolved (promptTemplate ratio expression idea props mainText textPlacement
              primary accent directional backgroundStyle).

(** Values whose string conversion does not throw: no object with an own
    [toString], at any depth of nested arrays. *)
Fixpoint convertible (v : JsValue) : bool :=
  match v with
  | JArray l => forallb (fun x => convertible x) l
  | JObject fields => negb (hasOwn fields "toString")
  | _ => true
  end.

(** The two outcomes of a conversion: a value when [ok], the conversion
    error otherwise. *)
Definition conversion {A : Type} (ok : bool) (o : Outcome A) : Prop :=
  if ok then exists a, o = Resolved a else o = Rejected CANNOT_CONVERT.

(** The values the template converts, other than the props and the
    directional cues. *)
Definition scalarSlots (strategy : ThumbnailDesign) : list JsValue :=
  [ nested strategy "visualElements" "expression";
    nested strategy "concept" "idea";
    optMember strategy "mainText";
    nested strategy "layoutInstructions" "textPlacement";
    nested strategy "colorPalette" "primary";
    nested strategy "colorPalette" "accent";
    nested strategy "visualElements" "backgroundStyle" ].

(** The array the renderer uses for [visualElements.K]. *)
Definition coerced (strategy : ThumbnailDesign) (key : string) : list JsValue :=
  if isArray (visualElement strategy key)
  then elementsOf (visualElement strategy key)
  else [].

(** Whether every value the template converts can be converted: exactly
    when the prompt of a strategy other than [null] and [undefined] can be
    built. *)
Definition promptConverts (strategy : ThumbnailDesign) : bool :=
  forallb convertible (scalarSlots strategy)
  && forallb convertible (coerced strategy "objects")
  && forallb convertible (coerced strategy "directionalElements").



Definition hasInlineData (part : GenAI.Part) : bool :=
  match GenAI.inlineData part with
  | Some _ => true
  | None => false
  end.

(** A response that carries no content part at all: the parts of its first
    candidate are missing, or there are none of them. *)
Definition carriesNoParts (response : GenAI.Response.t) : bool :=
  match firstCandidateParts response with
  | None => true
  | Some [] => true
  | Some (_ :: _) => false
  end.

Definition comma : ascii := ascii_of_nat 44.

(** The substring after the first comma of [s], if [s] has a comma. *)
Fixpoint afterFirstComma (s : string) : option string :=
  match s with
  | EmptyString => None
  | String c rest => if Ascii.eqb c comma then Some rest else afterFirstComma rest
  end.

(** The substring before the first comma of [s]; [s] itself without one. *)
Fixpoint beforeFirstComma (s : string) : string :=
  match s with
  | EmptyString => EmptyString
  | String c rest =>
      if Ascii.eqb c comma then EmptyString else String c (beforeFirstComma rest)
  end.

End Observe.

(** ** Concrete inputs *)

Module Examples.

Import JS.
Import Types.
Import GeminiService.
Import App.

(** A provider that rejects every request with [e], and one that answers
    every request with [r]. *)
Definition rejecting (e : Exn)
  : Log -> GenAI.GenerateContentParameters -> Outcome GenAI.Response.t :=
  fun _ _ => Rejected e.

Definition answering (r : GenAI.Response.t)
  : Log -> GenAI.GenerateContentParameters -> Outcome GenAI.Response.t :=
  fun _ _ => Resolved r.

(** A [JSON.parse] that accepts exactly the text [null]. *)
Definition parseNullOnly (s : string) : Outcome JsValue :=
  if String.eqb s "null" then Resolved JNull
  else Rejected (mkExn "SyntaxError" "Unexpected token in JSON at position 0").

Definition bareStrategy : ThumbnailDesign := JObject [].

Definition sampleStrategy : ThumbnailDesign :=
  JObject
    [ ("concept", JObject [("idea", JString "a cliff jump"); ("hook", JString "fear")]);
      ("mainText", JString "I DID IT");
      ("visualElements",
       JObject [("expression", JString "shocked face");
                ("objects", JString "rope");
                ("backgroundStyle", JString "blurred canyon")]) ].

(** A strategy whose [concept.idea] is an object with an own [toString]:
    what [JSON.parse] returns for
    [{"concept":{"idea":{"toString":"x"}}}]. *)
Definition unprintableIdea : ThumbnailDesign :=
  JObject [("concept", JObject [("idea", JObject [("toString", JString "x")])])].

Definition photo : ThumbnailImage := mkImage "data:image/jpeg;base64,QUJD" "image/jpeg".
Definition twoCommas : ThumbnailImage := mkImage "a,b,c" "image/png".
Definition noComma : ThumbnailImage := mkImage "QUJD" "image/png".

Definition textOnly : GenAI.Part := GenAI.mkPart (Some "a caption") None.
Definition picture : GenAI.Part :=
  GenAI.mkPart None (Some (GenAI.mkBlob (Some "iVBORw0KGgo=") "image/jpeg")).

Definition responseOf (ps : option (list GenAI.Part)) : GenAI.Response.t :=
  GenAI.Response.mk (Some [GenAI.mkCandidate (Some (GenAI.mkContent ps))]) None.

Definition noCandidates : GenAI.Response.t := GenAI.Response.mk (Some []) None.
Definition zeroParts : GenAI.Response.t := responseOf (Some []).
Definition captionOnly : GenAI.Response.t := responseOf (Some [textOnly]).
Definition withPicture : GenAI.Response.t := responseOf (Some [textOnly; picture; textOnly]).
Definition proseAnswer : GenAI.Response.t :=
  GenAI.Response.mk None (Some "Sure! Here is your design.").

Definition safetyFailure : Exn := mkExn "ApiError" "Request blocked: SAFETY".
Definition quotaFailure : Exn := mkExn "ApiError" "429 RESOURCE_EXHAUSTED".

Definition blankForm : ThumbnailRequest :=
  mkRequest EmptyString EmptyString SHOCK R16_9 (Some EmptyString) [].

Definition filledForm : ThumbnailRequest :=
  mkRequest "I Tried X for 30 Days" "Fitness" SHOCK R16_9 None [].

Definition noNiche : ThumbnailRequest :=
  mkRequest "I Tried X for 30 Days" EmptyString SHOCK R16_9 None [photo].

Definition initial (f : ThumbnailRequest) : State := mkState idle None None f.

Definition holding (r : GenerationResult) (f : ThumbnailRequest) : State :=
  mkState idle (Some r) None f.

End Examples.

(** ** App.tsx: the reference images of the form *)

Module AppForm.

Import JS.
Import Types.

Definition MAX_IMAGES : nat := 3.

(** [Array.prototype.slice(0, stop)]: a negative [stop] counts from the end
    of the array. *)
Definition slice0 {A : Type} (l : list A) (stop : Z) : list A :=
  if (stop <? 0)%Z
  then firstn (List.length l - Z.to_nat (- stop)) l
  else firstn (Z.to_nat stop) l.

(** The form the component starts with. *)
Definition initialForm : ThumbnailRequest :=
  mkRequest EmptyString EmptyString SHOCK R16_9 (Some EmptyString) [].

Definition withImages (imgs : list ThumbnailImage) (prev : ThumbnailRequest)
  : ThumbnailRequest :=
  mkRequest (title prev) (niche prev) (emotion prev) (ratio prev)
    (subjectDescription prev) imgs.

(** [prev => ({ ...prev, subjectImages: [...prev.subjectImages, img]
    .slice(0, MAX_IMAGES) })], the updater of [capturePhoto] and of
    [reader.onloadend]. *)
Definition addImage (img : ThumbnailImage) (prev : ThumbnailRequest)
  : ThumbnailRequest :=
  withImages (slice0 (subjectImages prev ++ [img]) (Z.of_nat MAX_IMAGES)) prev.

(** [capturePhoto], given what [toDataURL('image/jpeg')] returned. *)
Definition capturePhoto (dataUrl : string) (prev : ThumbnailRequest)
  : ThumbnailRequest :=
  addImage (mkImage dataUrl "image/jpeg") prev.

(** A selected file: its media type and the data URL its reader ends
    with. *)
Record File : Type := mkFile { type : string; readerResult : string }.

Definition imageOfFile (file : File) : ThumbnailImage :=
  mkImage (readerResult file) (type file).

(** [Array.from(files).slice(0, MAX_IMAGES - form.subjectImages.length)]:
    the files [handleFileUpload] starts a reader for. *)
Definition filesToProcess (form : ThumbnailRequest) (files : list File) : list File :=
  slice0 files
    (Z.of_nat MAX_IMAGES - Z.of_nat (List.length (subjectImages form)))%Z.

(** The form after the readers of [completed] have ended, in that order. *)
Definition loaded (completed : list File) (form : ThumbnailRequest)
  : ThumbnailRequest :=
  fold_left (fun prev file => addImage (imageOfFile file) prev) completed form.

(** [array.filter((_, i) => keep i)], counting from [i]. *)
Fixpoint filterIndex {A : Type} (keep : nat -> bool) (l : list A) (i : nat) : list A :=
  match l with
  | [] => []
  | x :: rest =>
      if keep i then x :: filterIndex keep rest (S i)
      else filterIndex keep rest (S i)
  end.

Definition removeImage (index : nat) (prev : ThumbnailRequest) : ThumbnailRequest :=
  withImages
    (filterIndex (fun i => negb (Nat.eqb i index)) (subjectImages prev) 0) prev.

(** What the user can do to the form. *)
Inductive Action : Type :=
| SetRatio (r : AspectRatio)
| SetTitle (v : string)
| SetNiche (v : string)
| SetEmotion (e : Emotion)
| SetDescription (v : string)
| Capture (dataUrl : string)
| FileLoaded (file : File)
| Remove (index : nat).

Definition act (a : Action) (f : ThumbnailRequest) : ThumbnailRequest :=
  match a with
  | SetRatio r =>
      mkRequest (title f) (niche f) (emotion f) r (subjectDescription f)
        (subjectImages f)
  | SetTitle v =>
      mkRequest v (niche f) (emotion f) (ratio f) (subjectDescription f)
        (subjectImages f)
  | SetNiche v =>
      mkRequest (title f) v (emotion f) (ratio f) (subjectDescription f)
        (subjectImages f)
  | SetEmotion e =>
      mkRequest (title f) (niche f) e (ratio f) (subjectDescription f)
        (subjectImages f)
  | SetDescription v =>
      mkRequest (title f) (niche f) (emotion f) (ratio f) (Some v)
        (subjectImages f)
  | Capture dataUrl => capturePhoto dataUrl f
  | FileLoaded file => addImage (imageOfFile file) f
  | Remove index => removeImage index f
  end.

Definition run (actions : list Action) (f : ThumbnailRequest) : ThumbnailRequest :=
  fold_left (fun prev a => act a prev) actions f.

End AppForm.

(** ** App.tsx: what the component shows *)

Module AppView.

Import JS.
Import Types.
Import GeminiService.
Import App.

Definition isIdle (p : LoadingPhase) : bool :=
  match p with
  | idle => true
  | _ => false
  end.

Definition isRendering (p : LoadingPhase) : bool :=
  match p with
  | rendering => true
  | _ => false
  end.

(** The status line of the header. *)
Definition statusText (p : LoadingPhase) : string :=
  match p with
  | strategizing => "Analyzing patterns..."
  | rendering => "Painting visuals..."
  | idle => "System Ready"
  end.

(** What the preview area holds; [Unmounted] when the render of the
    component threw, which leaves nothing of the component on screen. *)
Inductive Preview : Type :=
| Placeholder
| Spinner
| Picture (url : string)
| RetryPanel (strategy : ThumbnailDesign)
| Blank
| Unmounted.

(** Truthiness of a string that may be [undefined]. *)
Definition truthyString (s : option string) : bool :=
  match s with
  | Some v => negb (isEmpty v)
  | None => false
  end.

(** [v.join(sep)]: only arrays have a [join]. *)
Definition callJoin (v : JsValue) (sep : string) : Outcome string :=
  match v with
  | JArray l => join l sep
  | JUndefined | JNull => Rejected (TypeError (cannotRead v "join"))
  | _ => Rejected (TypeError "join is not a function")
  end.

(** [(strategy.layoutInstructions?.arrowDirections || []).join(" & ")
    || 'strategically'], the end of the [Visual Flow] line (line 386). *)
Definition arrowsText (strategy : ThumbnailDesign) : Outcome string :=
  directions <- chain strategy "layoutInstructions" "arrowDirections" ;;
  joined <- callJoin (or directions (JArray [])) " & " ;;
  Resolved (orString joined "strategically").

Definition resolves {A : Type} (o : Outcome A) : bool :=
  match o with
  | Resolved _ => true
  | Rejected _ => false
  end.

Section React.

(** The rendering library decides whether a value can be mounted as the
    child of an element, and as the value of a style property; a refusal
    is an error of the render. *)
Variable acceptsChild : JsValue -> bool.
Variable acceptsStyle : JsValue -> bool.

(** Lines 358 to 389: the two cards of a truthy strategy.  The render
    completes when every value placed as a child or as a style is accepted
    and the [Visual Flow] line can be built. *)
Definition cardsMount (strategy : ThumbnailDesign) : bool :=
  acceptsChild (or (optMember strategy "mainText") (JString "READY"))
  && acceptsChild (or (optMember (optMember strategy "concept") "idea")
                      (JString "Concept loading..."))
  && acceptsChild (or (optMember (optMember strategy "concept") "hook")
                      (JString EmptyString))
  && acceptsChild (or (optMember (optMember strategy "visualElements") "expression")
                      (JString "N/A"))
  && acceptsStyle (or (optMember (optMember strategy "colorPalette") "primary")
                      (JString "#333"))
  && acceptsStyle (or (optMember (optMember strategy "colorPalette") "accent")
                      (JString "#666"))
  && acceptsChild (or (optMember (optMember strategy "layoutInstructions")
                                 "textPlacement") (JString "..."))
  && acceptsChild (or (optMember (optMember strategy "layoutInstructions")
                                 "subjectPlacement") (JString "..."))
  && resolves (arrowsText strategy).

(** The picture area: [(result || loadingPhase !== 'idle') ?
    (loadingPhase === 'rendering' ? spinner : result?.imageUrl ? picture :
    result?.strategy ? retry : null) : placeholder]. *)
Definition pictureArea (st : State) : Preview :=
  let shown :=
    match result st with
    | Some _ => true
    | None => negb (isIdle (loadingPhase st))
    end in
  if shown then
    if isRendering (loadingPhase st) then Spinner
    else match result st with
         | Some r =>
             if truthyString (imageUrl r)
             then Picture (interpolate (imageUrl r))
             else if truthy (Types.strategy r) then RetryPanel (Types.strategy r)
             else Blank
         | None => Blank
         end
  else Placeholder.

(** One render of the component, mounted until then: the picture area,
    and under it [result?.strategy && cards]; an error in the cards
    unmounts the component.  The cards depend on the strategy of the
    result only, so the renders a handler causes on its way mount exactly
    when the last one does. *)
Definition preview (st : State) : Preview :=
  match result st with
  | Some r =>
      if truthy (Types.strategy r) && negb (cardsMount (Types.strategy r))
      then Unmounted
      else pictureArea st
  | None => pictureArea st
  end.

(** The [Retry Rendering] button exists only on the retry panel, where it
    runs [renderImageOnly(result.strategy)]. *)
Definition pressRetry
    (generateContent : Log -> GenAI.GenerateContentParameters -> Outcome GenAI.Response.t)
    (st : State) (log : Log) : State * Log :=
  match preview st with
  | RetryPanel strategy => renderImageOnly generateContent strategy st log
  | _ => (st, log)
  end.

End React.

End AppView.

(** ** Further concrete inputs *)

Module Scenarios.

Import JS.
Import Types.
Import GeminiService.
Import App.

(** A [JSON.parse] that knows three texts. *)
Definition parseSome (s : string) : Outcome JsValue :=
  if String.eqb s "{}" then Resolved (JObject [])
  else if String.eqb s "null" then Resolved JNull
  else if String.eqb s "[]" then Resolved (JArray [])
  else Rejected (mkExn "SyntaxError" "Unexpected token in JSON at position 0").

(** A rendering library that refuses plain objects as children and
    unconvertible values as styles. *)
Definition refusesObjects (v : JsValue) : bool :=
  match v with
  | JObject _ => false
  | _ => true
  end.

Definition textAnswer (t : string) : GenAI.Response.t :=
  GenAI.Response.mk None (Some t).

(** A provider that answers the reasoning model with [strategyAnswer] and
    the image model with [imageAnswer]. *)
Definition scripted (strategyAnswer imageAnswer : Outcome GenAI.Response.t)
  : Log -> GenAI.GenerateContentParameters -> Outcome GenAI.Response.t :=
  fun _ params =>
    if String.eqb (GenAI.model params) REASONING_MODEL then strategyAnswer
    else imageAnswer.

Definition fullStrategy : ThumbnailDesign :=
  JObject
    [ ("concept", JObject [("idea", JString "a cliff jump"); ("hook", JString "fear")]);
      ("mainText", JString "I DID IT");
      ("visualElements",
       JObject [("expression", JString "shocked face");
                ("objects", JArray [JString "rope"; JString "helmet"]);
                ("directionalElements", JArray [JString "red arrow"]);
                ("backgroundStyle", JString "blurred canyon")]);
      ("colorPalette",
       JObject [("primary", JString "#ff0000"); ("accent", JString "gold")]);
      ("layoutInstructions",
       JObject [("textPlacement", JString "left");
                ("arrowDirections", JArray [JString "towards text"; JString "towards face"])]) ].

(** A strategy whose arrays are present but join to the empty string. *)
Definition blankArrays : ThumbnailDesign :=
  JObject
    [ ("visualElements",
       JObject [("objects", JArray []);
                ("directionalElements", JArray [JNull])]);
      ("layoutInstructions", JObject [("arrowDirections", JString "left")]) ].

Definition portrait : AppForm.File :=
  AppForm.mkFile "image/png" "data:image/png;base64,UE5H".
Definition selfie : AppForm.File :=
  AppForm.mkFile "image/jpeg" "data:image/jpeg;base64,SlBH".
Definition logo : AppForm.File :=
  AppForm.mkFile "image/webp" "data:image/webp;base64,V0VCUA==".

End Scenarios.

(** * Properties *)

(** ** Facts about the JavaScript fragment *)

Module JSFacts.

Import JS.

Lemma prefix_nil (s : string) : String.prefix EmptyString s = true.
Proof. destruct s; reflexivity. Qed.

Lemma prefix_app (search a b : string) :
  String.prefix search a = true -> String.prefix search (a ++ b) = true.
Proof.
  revert a; induction search as [|c search IH]; intros a H.
  - apply prefix_nil.
  - destruct a as [|c' a]; simpl in *; [discriminate|].
    destruct (Ascii.ascii_dec c c'); [auto | discriminate].
Qed.

Lemma includes_prefix (s search : string) :
  String.prefix search s = true -> includes s search = true.
Proof. intros H; destruct s; cbn [includes]; rewrite H; reflexivity. Qed.

Lemma includes_app_l (a b search : string) :
  includes a search = true -> includes (a ++ b) search = true.
Proof.
  induction a as [|c a IH]; cbn [includes append]; intros H.
  - destruct search as [|c search]; [|discriminate].
    apply includes_prefix, prefix_nil.
  - destruct (String.prefix search (String c a)) eqn:E.
    + pose proof (prefix_app search (String c a) b E) as P.
      cbn [append] in P. rewrite P. reflexivity.
    + rewrite (IH H). destruct (String.prefix search (String c (a ++ b))); reflexivity.
Qed.

Lemma includes_app_r (a b search : string) :
  includes b search = true -> includes (a ++ b) search = true.
Proof.
  intros H; induction a as [|c a IH]; cbn [includes append]; [exact H|].
  rewrite IH. destruct (String.prefix search (String c (a ++ b))); reflexivity.
Qed.

Lemma includes_skip (c : ascii) (s search : string) :
  includes s search = true -> includes (String c s) search = true.
Proof. apply (includes_app_r (String c EmptyString) s). Qed.

Lemma orString_nonempty (a b : string) :
  b <> EmptyString -> orString a b <> EmptyString.
Proof.
  unfold orString; intros Hb.
  destruct (String.eqb a EmptyString) eqn:E; [exact Hb|].
  intros ->; discriminate.
Qed.

Lemma member_not_nullish (v : JsValue) (key : string) :
  isNullish v = false -> member v key = Resolved (optMember v key).
Proof. destruct v; simpl; intros H; try discriminate; reflexivity. Qed.

Lemma member_nullish (v : JsValue) (key : string) :
  isNullish v = true -> member v key = Rejected (TypeError (cannotRead v key)).
Proof. destruct v; simpl; intros H; try discriminate; reflexivity. Qed.

Lemma isArray_elementsOf (v : JsValue) :
  isArray v = true -> v = JArray (elementsOf v).
Proof. destruct v; simpl; intros H; try discriminate; reflexivity. Qed.

(** [split] never returns the empty array. *)
Lemma split_cons (s : string) (sep : ascii) :
  exists seg segs, split s sep = seg :: segs.
Proof.
  induction s as [|c s IH]; simpl; eauto.
  destruct (Ascii.eqb c sep); eauto.
  destruct IH as (seg & segs & ->); eauto.
Qed.

End JSFacts.

(** ** Facts about the service *)

Module ServiceFacts.

Import JS.
Import Types.
Import GeminiService.
Import Observe.
Import JSFacts.

Lemma pushImages_map (parts : list GenAI.Part) (imgs : list ThumbnailImage) :
  pushImages parts imgs = parts ++ map inlinePart imgs.
Proof.
  unfold pushImages; revert parts.
  induction imgs as [|img imgs IH]; intros parts; simpl.
  - now rewrite app_nil_r.
  - rewrite IH, <- app_assoc. reflexivity.
Qed.

Lemma chain_resolved (strategy : ThumbnailDesign) (key sub : string) :
  isNullish strategy = false ->
  chain strategy key sub = Resolved (nested strategy key sub).
Proof.
  intros H; unfold chain. rewrite (member_not_nullish _ key H). reflexivity.
Qed.

Lemma arrayOrEmpty_resolved (strategy : ThumbnailDesign) (key : string) :
  isNullish strategy = false ->
  arrayOrEmpty strategy key = Resolved (coerced strategy key).
Proof.
  intros H; unfold arrayOrEmpty, coerced, visualElement.
  rewrite (chain_resolved _ _ _ H); cbn [bind]; unfold nested.
  destruct (isArray (optMember (optMember strategy "visualElements") key)) eqn:E;
    [|reflexivity].
  rewrite (member_not_nullish _ "visualElements" H); cbn [bind].
  assert (N : isNullish (optMember strategy "visualElements") = false).
  { destruct (optMember strategy "visualElements"); try reflexivity;
      simpl in E; discriminate. }
  rewrite (member_not_nullish _ key N). reflexivity.
Qed.

Lemma promptText_not_nullish (strategy : ThumbnailDesign) (ratio : string) :
  isNullish strategy = false ->
  promptText strategy ratio =
  promptOf strategy ratio
    (coerced strategy "objects") (coerced strategy "directionalElements").
Proof.
  intros H; unfold promptText, substitute.
  now rewrite !(arrayOrEmpty_resolved _ _ H), !(chain_resolved _ _ _ H),
    !(member_not_nullish _ _ H).
Qed.

(** Induction on values through the elements of arrays. *)
Lemma JsValue_arrays_ind (P : JsValue -> Prop) :
  P JUndefined -> P JNull -> (forall b, P (JBool b)) ->
  (forall nonzero repr, P (JNumber nonzero repr)) ->
  (forall s, P (JString s)) ->
  (forall l, Forall P l -> P (JArray l)) ->
  (forall fields, P (JObject fields)) ->
  forall v, P v.
Proof.
  intros Hu Hn Hb Hz Hs Ha Ho.
  fix IH 1.
  intros [| |b|z r|s|l|fields];
    [exact Hu | exact Hn | apply Hb | apply Hz | apply Hs | | apply Ho].
  apply Ha. induction l as [|x l IHl]; constructor; [apply IH | exact IHl].
Qed.

Lemma ToString_array (l : list JsValue) : ToString (JArray l) = join l ",".
Proof.
  reflexivity.
Qed.

Lemma joinElements_conversion (l : list JsValue) :
  Forall (fun v => conversion (convertible v) (ToString v)) l ->
  conversion (forallb convertible l) (joinElements l).
Proof.
  induction 1 as [|x l Hx _ IH]; cbn [forallb joinElements].
  - exists []; reflexivity.
  - assert (Hj : conversion (convertible x) (joinElement x)).
    { destruct x; try exact Hx; exists EmptyString; reflexivity. }
    destruct (convertible x); cbn [andb conversion] in *.
    + destruct Hj as (first & ->); cbn [bind].
      destruct (forallb convertible l); cbn [conversion] in *.
      * destruct IH as (others & ->). now eexists.
      * now rewrite IH.
    + now rewrite Hj.
Qed.

Lemma join_conversion_from (l : list JsValue) (sep : string) :
  Forall (fun v => conversion (convertible v) (ToString v)) l ->
  conversion (forallb convertible l) (join l sep).
Proof.
  intros H; apply joinElements_conversion in H; unfold join.
  destruct (forallb convertible l); cbn [conversion] in *.
  - destruct H as (texts & ->). now eexists.
  - now rewrite H.
Qed.

Lemma ToString_conversion (v : JsValue) :
  conversion (convertible v) (ToString v).
Proof.
  induction v as [| |b|z r|s|l IH|fields] using JsValue_arrays_ind;
    try (now eexists).
  - destruct b; now eexists.
  - rewrite ToString_array.
    change (convertible (JArray l)) with (forallb convertible l).
    now apply join_conversion_from.
  - cbn [convertible ToString].
    destruct (hasOwn fields "toString"); [reflexivity | now eexists].
Qed.

Lemma join_conversion (l : list JsValue) (sep : string) :
  conversion (forallb convertible l) (join l sep).
Proof.
  apply join_conversion_from, Forall_forall. intros v _. apply ToString_conversion.
Qed.

Lemma falsy_convertible (v : JsValue) : truthy v = false -> convertible v = true.
Proof. destruct v; cbn; intros H; try reflexivity; discriminate. Qed.

Lemma shown_conversion (v : JsValue) (fallback : string) :
  conversion (convertible v) (shown v fallback).
Proof.
  unfold shown, or. destruct (truthy v) eqn:T; [apply ToString_conversion|].
  rewrite (falsy_convertible _ T). now eexists.
Qed.

Lemma joined_conversion (l : list JsValue) (fallback : string) :
  conversion (forallb convertible l) (joined l fallback).
Proof.
  pose proof (join_conversion l ", ") as H; unfold joined.
  destruct (forallb convertible l); cbn [conversion] in *.
  - destruct H as (text & ->). now eexists.
  - now rewrite H.
Qed.

(** The prompt of a strategy other than [null] and [undefined] is built
    exactly when every value of the template converts; otherwise the
    construction throws the conversion error. *)
Lemma promptOf_conversion strategy ratio objects directional :
  conversion (forallb convertible (scalarSlots strategy)
              && forallb convertible objects
              && forallb convertible directional)
             (promptOf strategy ratio objects directional).
Proof.
  unfold promptOf, scalarSlots; cbn [forallb].
  repeat match goal with
  | |- context [shown ?v ?d] =>
      let H := fresh "H" in
      pose proof (shown_conversion v d) as H;
      destruct (convertible v); cbn [conversion andb] in H |- *;
      [destruct H as (? & ->); cbn [bind]
      |rewrite H; cbn [bind];
       repeat match goal with
         | |- context [joined ?l ?d'] =>
             let J := fresh "J" in
             pose proof (joined_conversion l d') as J;
             destruct (forallb convertible l); cbn [conversion] in J;
             [destruct J as (? & ->) | rewrite J]; cbn [bind]
         end;
       rewrite ?andb_false_r; cbn [andb conversion]; reflexivity]
  | |- context [joined ?l ?d] =>
      let J := fresh "J" in
      pose proof (joined_conversion l d) as J;
      destruct (forallb convertible l); cbn [conversion andb] in J |- *;
      [destruct J as (? & ->); cbn [bind]
      |rewrite J; cbn [bind]; rewrite ?andb_false_r; cbn [andb conversion];
       reflexivity]
  end.
  cbn [andb conversion]. now eexists.
Qed.

Lemma promptText_resolves (strategy : ThumbnailDesign) (ratio : string) :
  isNullish strategy = false ->
  promptConverts strategy = true ->
  exists p, promptText strategy ratio = Resolved p.
Proof.
  intros H C. rewrite (promptText_not_nullish _ _ H).
  pose proof (promptOf_conversion strategy ratio (coerced strategy "objects")
                (coerced strategy "directionalElements")) as P.
  unfold promptConverts in C. rewrite C in P. exact P.
Qed.

Lemma promptText_unconvertible (strategy : ThumbnailDesign) (ratio : string) :
  isNullish strategy = false ->
  promptConverts strategy = false ->
  promptText strategy ratio = Rejected CANNOT_CONVERT.
Proof.
  intros H C. rewrite (promptText_not_nullish _ _ H).
  pose proof (promptOf_conversion strategy ratio (coerced strategy "objects")
                (coerced strategy "directionalElements")) as P.
  unfold promptConverts in C. rewrite C in P. exact P.
Qed.

(** What a built prompt is made of. *)
Lemma promptOf_resolved_inv strategy ratio objects directional p :
  promptOf strategy ratio objects directional = Resolved p ->
  exists e i pr m t c1 c2 d b,
    shown (nested strategy "visualElements" "expression") "person" = Resolved e
    /\ shown (nested strategy "concept" "idea") "intense scene" = Resolved i
    /\ joined objects "none" = Resolved pr
    /\ shown (optMember strategy "mainText") EmptyString = Resolved m
    /\ shown (nested strategy "layoutInstructions" "textPlacement") "center"
       = Resolved t
    /\ shown (nested strategy "colorPalette" "primary") "red" = Resolved c1
    /\ shown (nested strategy "colorPalette" "accent") "yellow" = Resolved c2
    /\ joined directional "arrows" = Resolved d
    /\ shown (nested strategy "visualElements" "backgroundStyle") "vibrant gradient"
       = Resolved b
    /\ p = promptTemplate ratio e i pr m t c1 c2 d b.
Proof.
  unfold promptOf.
  destruct (shown (nested strategy "visualElements" "expression") "person")
    as [e|]; cbn [bind]; [|discriminate].
  destruct (shown (nested strategy "concept" "idea") "intense scene")
    as [i|]; cbn [bind]; [|discriminate].
  destruct (joined objects "none") as [pr|]; cbn [bind]; [|discriminate].
  destruct (shown (optMember strategy "mainText") EmptyString)
    as [m|]; cbn [bind]; [|discriminate].
  destruct (shown (nested strategy "layoutInstructions" "textPlacement") "center")
    as [t|]; cbn [bind]; [|discriminate].
  destruct (shown (nested strategy "colorPalette" "primary") "red")
    as [c1|]; cbn [bind]; [|discriminate].
  destruct (shown (nested strategy "colorPalette" "accent") "yellow")
    as [c2|]; cbn [bind]; [|discriminate].
  destruct (joined directional "arrows") as [d|]; cbn [bind]; [|discriminate].
  destruct (shown (nested strategy "visualElements" "backgroundStyle")
              "vibrant gradient") as [b|]; cbn [bind]; [|discriminate].
  intros [= <-]. exists e, i, pr, m, t, c1, c2, d, b. repeat split.
Qed.

Lemma promptText_rejected (strategy : ThumbnailDesign) (ratio : string) :
  isNullish strategy = true ->
  promptText strategy ratio =
  Rejected (TypeError (cannotRead strategy "visualElements")).
Proof.
  intros H; unfold promptText, arrayOrEmpty, chain.
  rewrite (member_nullish _ "visualElements" H). reflexivity.
Qed.

Lemma promptText_resolved_inv (strategy : ThumbnailDesign) (ratio p : string) :
  promptText strategy ratio = Resolved p ->
  isNullish strategy = false
  /\ promptOf strategy ratio
       (coerced strategy "objects") (coerced strategy "directionalElements")
     = Resolved p.
Proof.
  intros H. destruct (isNullish strategy) eqn:N.
  - rewrite (promptText_rejected _ _ N) in H. discriminate.
  - split; [reflexivity|]. now rewrite <- (promptText_not_nullish _ _ N).
Qed.

(** Unfolding lemmas for the renderer: one request when the prompt could
    be built, none otherwise. *)
Section Run.

Variable generateContent :
  Log -> GenAI.GenerateContentParameters -> Outcome GenAI.Response.t.

Lemma renderBody_run strategy ratio imgs log p :
  promptText strategy ratio = Resolved p ->
  renderBody generateContent strategy ratio imgs log =
  (bind (generateContent log (imageRequest p ratio imgs)) extractImage,
   log ++ [imageRequest p ratio imgs]).
Proof.
  intros H; unfold renderBody, await, pure, models_generateContent.
  rewrite H. destruct (generateContent log _); reflexivity.
Qed.

Lemma renderBody_no_call strategy ratio imgs log e :
  promptText strategy ratio = Rejected e ->
  renderBody generateContent strategy ratio imgs log = (Rejected e, log).
Proof.
  intros H; unfold renderBody, await, pure. rewrite H. reflexivity.
Qed.

Lemma generateThumbnailImage_catch strategy ratio imgs log :
  generateThumbnailImage generateContent strategy ratio imgs log =
  (tryCatch (fst (renderBody generateContent strategy ratio imgs log)) onRenderError,
   snd (renderBody generateContent strategy ratio imgs log)).
Proof.
  unfold generateThumbnailImage, catch, pure.
  destruct (renderBody generateContent strategy ratio imgs log) as [[url|e] log'];
    reflexivity.
Qed.

Lemma generateThumbnailImage_run strategy ratio imgs log p :
  promptText strategy ratio = Resolved p ->
  generateThumbnailImage generateContent strategy ratio imgs log =
  (tryCatch (bind (generateContent log (imageRequest p ratio imgs)) extractImage)
            onRenderError,
   log ++ [imageRequest p ratio imgs]).
Proof.
  intros H. rewrite generateThumbnailImage_catch, (renderBody_run _ _ _ _ _ H).
  reflexivity.
Qed.

Lemma generateThumbnailImage_no_call strategy ratio imgs log e :
  promptText strategy ratio = Rejected e ->
  generateThumbnailImage generateContent strategy ratio imgs log =
  (onRenderError e, log).
Proof.
  intros H. rewrite generateThumbnailImage_catch, (renderBody_no_call _ _ _ _ _ H).
  reflexivity.
Qed.


End Run.

Lemma scanParts_none (ps : list GenAI.Part) :
  Forall (fun part => GenAI.inlineData part = None) ps ->
  scanParts ps = Rejected NO_IMAGE_DATA.
Proof.
  induction 1 as [|part ps H _ IH]; simpl; [reflexivity|].
  rewrite H. exact IH.
Qed.


Lemma scanParts_prefix (ps : list GenAI.Part) (url : string) :
  scanParts ps = Resolved url -> String.prefix DATA_URL_PREFIX url = true.
Proof.
  induction ps as [|part ps IH]; simpl; [discriminate|].
  destruct (GenAI.inlineData part) as [blob|]; [|exact IH].
  intros [= <-]. apply (prefix_app DATA_URL_PREFIX DATA_URL_PREFIX). reflexivity.
Qed.

Lemma onRenderError_rejects (e : Exn) (url : string) :
  onRenderError e <> Resolved url.
Proof. unfold onRenderError; destruct (includes _ _); discriminate. Qed.

End ServiceFacts.

(** ** The image renderer *)

Module Renderer.

Import JS.
Import Types.
Import GeminiService.
Import Observe.
Import JSFacts.
Import ServiceFacts.

(** Walks down a right-nested concatenation until the searched text is a
    prefix of what remains. *)
Ltac find_in_template :=
  repeat first
    [ apply includes_prefix; reflexivity
    | apply includes_skip
    | progress cbn [append]
    | apply includes_app_r ].

Lemma promptTemplate_mentions_references ratio e i pr m t c1 c2 d b :
  includes (promptTemplate ratio e i pr m t c1 c2 d b) REFERENCE_INSTRUCTION = true.
Proof. unfold promptTemplate. find_in_template. Qed.

Lemma sentPrompt_imageRequest (p ratio : string) (imgs : list ThumbnailImage) :
  sentPrompt (imageRequest p ratio imgs) = Some p.
Proof.
  unfold sentPrompt, imageRequest; cbn [GenAI.contents GenAI.parts].
  rewrite pushImages_map. reflexivity.
Qed.

Lemma renderPrompt_resolved strategy ratio imgs p :
  promptText strategy ratio = Resolved p ->
  renderPrompt strategy ratio imgs = Some p.
Proof. intros H; unfold renderPrompt. rewrite H. apply sentPrompt_imageRequest. Qed.

Lemma built_prompt_mentions_references strategy ratio p :
  promptText strategy ratio = Resolved p ->
  includes p REFERENCE_INSTRUCTION = true.
Proof.
  intros H. apply promptText_resolved_inv in H as [_ H].
  apply promptOf_resolved_inv in H
    as (e & i & pr & m & t & c1 & c2 & d & b & _ & _ & _ & _ & _ & _ & _ & _ & _ & ->).
  apply promptTemplate_mentions_references.
Qed.

(** C1, as amended.  For every strategy, ratio, sequence of reference
    images and provider: whenever the renderer builds a prompt, it issues
    exactly one request, whose prompt does not depend on the reference
    images and contains the instruction to use the provided reference
    images, whether or not any image is supplied; a prompt is built for
    every strategy document (a value other than [null] and [undefined])
    whose interpolated values can be converted to strings; and when no
    prompt can be built, no request is issued. *)
Theorem reference_instruction_unconditional :
  forall generateContent strategy ratio imgs log,
    (forall p,
       promptText strategy ratio = Resolved p ->
       snd (generateThumbnailImage generateContent strategy ratio imgs log)
       = log ++ [imageRequest p ratio imgs]
       /\ renderPrompt strategy ratio imgs = Some p
       /\ renderPrompt strategy ratio [] = Some p
       /\ promptIncludes strategy ratio imgs REFERENCE_INSTRUCTION = true)
    /\ (isNullish strategy = false ->
        promptConverts strategy = true ->
        exists p, promptText strategy ratio = Resolved p)
    /\ (forall e,
          promptText strategy ratio = Rejected e ->
          renderPrompt strategy ratio imgs = None
          /\ snd (generateThumbnailImage generateContent strategy ratio imgs log)
             = log).
Proof.
  intros gc strategy ratio imgs log. split; [|split].
  - intros p Hp.
    split; [rewrite (generateThumbnailImage_run gc _ _ _ _ _ Hp); reflexivity|].
    split; [apply (renderPrompt_resolved _ _ _ _ Hp)|].
    split; [apply (renderPrompt_resolved _ _ _ _ Hp)|].
    unfold promptIncludes. rewrite (renderPrompt_resolved _ _ _ _ Hp).
    apply (built_prompt_mentions_references _ _ _ Hp).
  - apply promptText_resolves.
  - intros e He. split; [unfold renderPrompt; now rewrite He|].
    now rewrite (generateThumbnailImage_no_call gc _ _ _ _ _ He).
Qed.

Lemma reference_instruction_unconditional_witness :
  (exists p,
     promptText Examples.sampleStrategy "16:9" = Resolved p
     /\ snd (generateThumbnailImage (Examples.rejecting Examples.quotaFailure)
               Examples.sampleStrategy "16:9" [Examples.photo] [])
        = [] ++ [imageRequest p "16:9" [Examples.photo]]
     /\ renderPrompt Examples.sampleStrategy "16:9" [Examples.photo] = Some p
     /\ renderPrompt Examples.sampleStrategy "16:9" [] = Some p
     /\ promptIncludes Examples.sampleStrategy "16:9" [Examples.photo]
          REFERENCE_INSTRUCTION = true)
  /\ renderPrompt Examples.unprintableIdea "16:9" [Examples.photo] = None
  /\ snd (generateThumbnailImage (Examples.rejecting Examples.quotaFailure)
            Examples.unprintableIdea "16:9" [Examples.photo] []) = [].
Proof.
  split.
  - destruct (reference_instruction_unconditional
                (Examples.rejecting Examples.quotaFailure)
                Examples.sampleStrategy "16:9" [Examples.photo] [])
      as (Hbuilt & Hexists & _).
    destruct (Hexists eq_refl eq_refl) as (p & Hp).
    exists p. split; [exact Hp | exact (Hbuilt p Hp)].
  - destruct (reference_instruction_unconditional
                (Examples.rejecting Examples.quotaFailure)
                Examples.unprintableIdea "16:9" [Examples.photo] [])
      as (_ & _ & Hnone).
    apply (Hnone CANNOT_CONVERT). reflexivity.
Defined.

(** C1 as stated fails: with no reference image at all, the prompt built for
    the empty strategy object still contains the instruction. *)
Lemma reference_instruction_without_images :
  promptIncludes Examples.bareStrategy "16:9" [] REFERENCE_INSTRUCTION = true
  /\ ~ (promptIncludes Examples.bareStrategy "16:9" [] REFERENCE_INSTRUCTION = true
        <-> @nil ThumbnailImage <> []).
Proof.
  split; [vm_compute; reflexivity|].
  intros [H _]. apply H; [vm_compute|]; reflexivity.
Qed.

Lemma promptTemplate_no_props ratio e i m t c1 c2 d b :
  includes (promptTemplate ratio e i "none" m t c1 c2 d b) "Props: none." = true.
Proof. unfold promptTemplate. find_in_template. Qed.

Lemma promptTemplate_no_directional ratio e i pr m t c1 c2 b :
  includes (promptTemplate ratio e i pr m t c1 c2 "arrows" b) "directional arrows."
  = true.
Proof. unfold promptTemplate. find_in_template. Qed.

Lemma coerced_not_array (strategy : ThumbnailDesign) (key : string) :
  isArray (visualElement strategy key) = false -> coerced strategy key = [].
Proof. unfold coerced; intros ->; reflexivity. Qed.

Lemma no_props_in_built_prompt strategy ratio directional p :
  promptOf strategy ratio [] directional = Resolved p ->
  includes p "Props: none." = true.
Proof.
  intros H. apply promptOf_resolved_inv in H
    as (e & i & pr & m & t & c1 & c2 & d & b & _ & _ & Hpr & _ & _ & _ & _ & _ & _ & ->).
  injection Hpr as <-. apply promptTemplate_no_props.
Qed.

Lemma no_directional_in_built_prompt strategy ratio objects p :
  promptOf strategy ratio objects [] = Resolved p ->
  includes p "directional arrows." = true.
Proof.
  intros H. apply promptOf_resolved_inv in H
    as (e & i & pr & m & t & c1 & c2 & d & b & _ & _ & _ & _ & _ & _ & _ & Hd & _ & ->).
  injection Hd as <-. apply promptTemplate_no_directional.
Qed.

(** C5, as amended.  For every strategy document (a value other than
    [null] and [undefined]) whose [visualElements.objects] is absent or is
    not an array, the renderer takes the empty array for the props without
    an error, the prompt is computed from the empty array, and every prompt
    built reads [Props: none.]; the prompt is built, without an error,
    whenever the other values it interpolates can be converted to strings.
    Likewise for [visualElements.directionalElements], with
    [directional arrows.]. *)
Theorem missing_arrays_default :
  forall strategy ratio,
    isNullish strategy = false ->
    (isArray (visualElement strategy "objects") = false ->
     arrayOrEmpty strategy "objects" = Resolved []
     /\ promptText strategy ratio
        = promptOf strategy ratio [] (coerced strategy "directionalElements")
     /\ (forall p, promptText strategy ratio = Resolved p ->
                   includes p "Props: none." = true)
     /\ (forallb convertible (scalarSlots strategy) = true ->
         forallb convertible (coerced strategy "directionalElements") = true ->
         exists p, promptText strategy ratio = Resolved p))
    /\
    (isArray (visualElement strategy "directionalElements") = false ->
     arrayOrEmpty strategy "directionalElements" = Resolved []
     /\ promptText strategy ratio
        = promptOf strategy ratio (coerced strategy "objects") []
     /\ (forall p, promptText strategy ratio = Resolved p ->
                   includes p "directional arrows." = true)
     /\ (forallb convertible (scalarSlots strategy) = true ->
         forallb convertible (coerced strategy "objects") = true ->
         exists p, promptText strategy ratio = Resolved p)).
Proof.
  intros strategy ratio H; split; intros E.
  - assert (P : promptText strategy ratio
                = promptOf strategy ratio [] (coerced strategy "directionalElements"))
      by (rewrite (promptText_not_nullish _ _ H), (coerced_not_array _ _ E);
          reflexivity).
    split; [rewrite (arrayOrEmpty_resolved _ _ H), (coerced_not_array _ _ E);
            reflexivity|].
    split; [exact P|].
    split; [intros p Hp; rewrite P in Hp;
            exact (no_props_in_built_prompt _ _ _ _ Hp)|].
    intros S D. apply (promptText_resolves _ _ H).
    unfold promptConverts. rewrite S, D, (coerced_not_array _ _ E). reflexivity.
  - assert (P : promptText strategy ratio
                = promptOf strategy ratio (coerced strategy "objects") [])
      by (rewrite (promptText_not_nullish _ _ H), (coerced_not_array _ _ E);
          reflexivity).
    split; [rewrite (arrayOrEmpty_resolved _ _ H), (coerced_not_array _ _ E);
            reflexivity|].
    split; [exact P|].
    split; [intros p Hp; rewrite P in Hp;
            exact (no_directional_in_built_prompt _ _ _ _ Hp)|].
    intros S O. apply (promptText_resolves _ _ H).
    unfold promptConverts. rewrite S, O, (coerced_not_array _ _ E). reflexivity.
Qed.

(** In [sampleStrategy] the props are a string and the directional cues are
    absent. *)
Lemma missing_arrays_default_witness :
  (arrayOrEmpty Examples.sampleStrategy "objects" = Resolved []
   /\ exists p, promptText Examples.sampleStrategy "9:16" = Resolved p
                /\ includes p "Props: none." = true)
  /\
  (arrayOrEmpty Examples.sampleStrategy "directionalElements" = Resolved []
   /\ exists p, promptText Examples.sampleStrategy "9:16" = Resolved p
                /\ includes p "directional arrows." = true).
Proof.
  destruct (missing_arrays_default Examples.sampleStrategy "9:16") as [Ho Hd];
    [reflexivity|].
  destruct (Ho eq_refl) as (Ho1 & _ & Ho3 & Ho4).
  destruct (Hd eq_refl) as (Hd1 & _ & Hd3 & Hd4).
  destruct (Ho4 eq_refl eq_refl) as (p & Hp).
  destruct (Hd4 eq_refl eq_refl) as (q & Hq).
  split; (split; [assumption|]).
  - exists p. split; [exact Hp | exact (Ho3 p Hp)].
  - exists q. split; [exact Hq | exact (Hd3 q Hq)].
Defined.

(** C5 as stated fails: in the strategy
    [{"concept":{"idea":{"toString":"x"}}}] the props are absent, and the
    construction of the prompt throws: the conversion of [concept.idea] to
    a string finds no usable [toString]. *)
Lemma missing_props_yet_no_prompt :
  isNullish Examples.unprintableIdea = false
  /\ isArray (visualElement Examples.unprintableIdea "objects") = false
  /\ promptText Examples.unprintableIdea "16:9" = Rejected CANNOT_CONVERT
  /\ ~ (exists p, promptText Examples.unprintableIdea "16:9" = Resolved p).
Proof.
  split; [reflexivity|]. split; [reflexivity|]. split; [reflexivity|].
  intros (p & H). discriminate H.
Qed.

Lemma empty_response_passes_catch :
  onRenderError EMPTY_RESPONSE = Rejected EMPTY_RESPONSE.
Proof. reflexivity. Qed.

Lemma no_image_data_passes_catch :
  onRenderError NO_IMAGE_DATA = Rejected NO_IMAGE_DATA.
Proof. reflexivity. Qed.

Lemma firstCandidateParts_none (response : GenAI.Response.t) :
  firstCandidateParts response = None <->
  (GenAI.Response.candidates response = None
   \/ GenAI.Response.candidates response = Some []
   \/ exists c cs,
        GenAI.Response.candidates response = Some (c :: cs)
        /\ (GenAI.content c = None \/ GenAI.content c = Some (GenAI.mkContent None))).
Proof.
  unfold firstCandidateParts.
  destruct (GenAI.Response.candidates response) as [[|c cs]|]; simpl.
  - split; auto.
  - destruct (GenAI.content c) as [[ps]|] eqn:E; simpl.
    + split.
      * intros ->. right; right. exists c, cs. rewrite E; auto.
      * intros [H|[H|(c' & cs' & H & Hc)]]; try discriminate.
        injection H as <- <-. rewrite E in Hc.
        destruct Hc as [Hc|Hc]; [discriminate|]. now injection Hc.
    + split; auto. intros _. right; right. exists c, cs. rewrite E; auto.
  - split; auto.
Qed.

(** C6, as amended.  Once the prompt is built and the provider has answered:
    when the parts of the first candidate are missing (no [candidates], an
    empty [candidates], a first candidate without [content], or a [content]
    without [parts]), the renderer fails with the empty-response error; when
    the first candidate has a [parts] array, be it empty, in which no part
    carries inline data, the renderer fails with the no-image-data error;
    and the two errors differ. *)
Theorem empty_and_no_image_errors :
  forall generateContent strategy ratio imgs log p response,
    promptText strategy ratio = Resolved p ->
    generateContent log (imageRequest p ratio imgs) = Resolved response ->
    ((GenAI.Response.candidates response = None
      \/ GenAI.Response.candidates response = Some []
      \/ exists c cs,
           GenAI.Response.candidates response = Some (c :: cs)
           /\ (GenAI.content c = None
               \/ GenAI.content c = Some (GenAI.mkContent None))) ->
     fst (generateThumbnailImage generateContent strategy ratio imgs log)
     = Rejected EMPTY_RESPONSE)
    /\
    (forall c cs ps,
       GenAI.Response.candidates response = Some (c :: cs) ->
       GenAI.content c = Some (GenAI.mkContent (Some ps)) ->
       Forall (fun part => GenAI.inlineData part = None) ps ->
       fst (generateThumbnailImage generateContent strategy ratio imgs log)
       = Rejected NO_IMAGE_DATA)
    /\ EMPTY_RESPONSE <> NO_IMAGE_DATA.
Proof.
  intros gc strategy ratio imgs log p response Hp Hr.
  rewrite (generateThumbnailImage_run gc _ _ _ _ _ Hp), Hr.
  cbn [fst bind]; unfold extractImage.
  split; [|split].
  - intros H. apply firstCandidateParts_none in H. rewrite H. reflexivity.
  - intros c cs ps Hc Hct Hps.
    unfold firstCandidateParts. rewrite Hc; cbn [nth_error]. rewrite Hct.
    cbn [GenAI.parts]. rewrite (scanParts_none _ Hps). reflexivity.
  - discriminate.
Qed.

Lemma empty_and_no_image_errors_witness :
  fst (generateThumbnailImage (Examples.answering Examples.noCandidates)
         Examples.bareStrategy "16:9" [] []) = Rejected EMPTY_RESPONSE
  /\ fst (generateThumbnailImage (Examples.answering Examples.captionOnly)
            Examples.bareStrategy "16:9" [] []) = Rejected NO_IMAGE_DATA.
Proof.
  split.
  - destruct (promptText Examples.bareStrategy "16:9") as [p|e] eqn:Hp;
      [|discriminate].
    apply (empty_and_no_image_errors (Examples.answering Examples.noCandidates)
             Examples.bareStrategy "16:9" [] [] p Examples.noCandidates Hp eq_refl).
    right; left; reflexivity.
  - destruct (promptText Examples.bareStrategy "16:9") as [p|e] eqn:Hp;
      [|discriminate].
    apply (empty_and_no_image_errors (Examples.answering Examples.captionOnly)
             Examples.bareStrategy "16:9" [] [] p Examples.captionOnly Hp eq_refl)
      with (c := GenAI.mkCandidate (Some (GenAI.mkContent (Some [Examples.textOnly]))))
           (cs := []) (ps := [Examples.textOnly]).
    + reflexivity.
    + reflexivity.
    + repeat constructor.
Defined.

(** C6 as stated fails: a response whose first candidate has an empty
    [parts] array carries no content part at all, and the renderer fails
    with the no-image-data error, not with the empty-response error. *)
Lemma zero_parts_is_not_empty_response :
  carriesNoParts Examples.zeroParts = true
  /\ fst (generateThumbnailImage (Examples.answering Examples.zeroParts)
            Examples.bareStrategy "16:9" [] []) = Rejected NO_IMAGE_DATA
  /\ fst (generateThumbnailImage (Examples.answering Examples.zeroParts)
            Examples.bareStrategy "16:9" [] []) <> Rejected EMPTY_RESPONSE.
Proof.
  split; [reflexivity|]. split; [vm_compute; reflexivity|].
  vm_compute. discriminate.
Qed.

(** A rejection by the provider is a failure of the [try] block. *)
Lemma provider_failure_reaches_catch generateContent strategy ratio imgs log p e :
  promptText strategy ratio = Resolved p ->
  generateContent log (imageRequest p ratio imgs) = Rejected e ->
  renderBody generateContent strategy ratio imgs log
  = (Rejected e, log ++ [imageRequest p ratio imgs]).
Proof. intros Hp Hr. rewrite (renderBody_run _ _ _ _ _ _ Hp), Hr. reflexivity. Qed.

(** C7.  Whatever fails inside the renderer (building the prompt, the
    provider call, or the inspection of the response) with an error [e]:
    when the message of [e] contains [SAFETY], the renderer rejects with the
    safety-block error, whose message tells the user to try a different
    concept; otherwise it rejects with [e] itself. *)
Theorem safety_failures_resurfaced :
  forall generateContent strategy ratio imgs log e log',
    renderBody generateContent strategy ratio imgs log = (Rejected e, log') ->
    generateThumbnailImage generateContent strategy ratio imgs log
    = (Rejected (if includes (message e) "SAFETY" then SAFETY_BLOCK else e), log')
    /\ includes (message SAFETY_BLOCK) "Try a different concept." = true.
Proof.
  intros gc strategy ratio imgs log e log' H.
  split; [|reflexivity].
  rewrite generateThumbnailImage_catch, H; cbn [fst snd tryCatch].
  unfold onRenderError. destruct (includes (message e) "SAFETY"); reflexivity.
Qed.

Lemma safety_failures_resurfaced_witness :
  (generateThumbnailImage (Examples.rejecting Examples.safetyFailure)
     Examples.bareStrategy "16:9" [] []
   = (Rejected SAFETY_BLOCK,
      snd (renderBody (Examples.rejecting Examples.safetyFailure)
             Examples.bareStrategy "16:9" [] []))
   /\ includes (message SAFETY_BLOCK) "Try a different concept." = true)
  /\
  (generateThumbnailImage (Examples.rejecting Examples.quotaFailure)
     JNull "16:9" [] []
   = (Rejected (TypeError (cannotRead JNull "visualElements")), [])
   /\ includes (message SAFETY_BLOCK) "Try a different concept." = true).
Proof.
  split.
  - apply (safety_failures_resurfaced (Examples.rejecting Examples.safetyFailure)
             Examples.bareStrategy "16:9" [] [] Examples.safetyFailure).
    reflexivity.
  - apply (safety_failures_resurfaced (Examples.rejecting Examples.quotaFailure)
             JNull "16:9" [] [] (TypeError (cannotRead JNull "visualElements")) []).
    reflexivity.
Defined.



(** [split(',')[1]] in terms of the first comma. *)
Lemma split_head (s : string) :
  nth_error (split s ",") 0 = Some (beforeFirstComma s).
Proof.
  induction s as [|c s IH]; cbn [split beforeFirstComma]; [reflexivity|].
  change (Ascii.eqb c comma) with (Ascii.eqb c ",").
  destruct (Ascii.eqb c ","); [reflexivity|].
  destruct (split s ",") as [|seg segs]; [discriminate|].
  injection IH as ->. reflexivity.
Qed.

Lemma split_second (s : string) :
  nth_error (split s ",") 1 = option_map beforeFirstComma (afterFirstComma s).
Proof.
  induction s as [|c s IH]; cbn [split afterFirstComma]; [reflexivity|].
  change (Ascii.eqb c comma) with (Ascii.eqb c ",").
  destruct (Ascii.eqb c ","); [exact (split_head s)|].
  destruct (split_cons s ",") as (seg & segs & E).
  rewrite E in *. exact IH.
Qed.

Lemma beforeFirstComma_no_comma (s : string) :
  afterFirstComma s = None -> beforeFirstComma s = s.
Proof.
  induction s as [|c s IH]; cbn [afterFirstComma beforeFirstComma]; [reflexivity|].
  destruct (Ascii.eqb c comma); [discriminate|].
  intros H. now rewrite (IH H).
Qed.

(** With exactly one comma the payload is everything after it; without a
    comma there is no payload. *)
Lemma inline_payload_single_comma (img : ThumbnailImage) (rest : string) :
  afterFirstComma (data img) = Some rest ->
  afterFirstComma rest = None ->
  GenAI.inlineData (inlinePart img) = Some (GenAI.mkBlob (Some rest) (mimeType img)).
Proof.
  intros H1 H2; unfold inlinePart; cbn [GenAI.inlineData].
  rewrite split_second, H1; cbn [option_map].
  now rewrite (beforeFirstComma_no_comma _ H2).
Qed.

Lemma inline_payload_no_comma (img : ThumbnailImage) :
  afterFirstComma (data img) = None ->
  GenAI.inlineData (inlinePart img) = Some (GenAI.mkBlob None (mimeType img)).
Proof.
  intros H; unfold inlinePart; cbn [GenAI.inlineData].
  now rewrite split_second, H.
Qed.

(** C10, as amended.  Both the synthesizer and the renderer send their text
    part followed by one part per reference image, in order; the part of an
    image carries the image's declared [mimeType] and, as [data], the piece
    of the image's [data] that lies between its first comma and its next
    comma (or the end of the string when there is no further comma); when
    [data] has no comma, the transmitted [data] is absent. *)
Theorem inline_payload_is_second_segment :
  forall (img : ThumbnailImage) (req : ThumbnailRequest) (p ratio : string)
         (imgs : list ThumbnailImage),
    GenAI.inlineData (inlinePart img)
    = Some (GenAI.mkBlob (option_map beforeFirstComma (afterFirstComma (data img)))
                         (mimeType img))
    /\ GenAI.text (inlinePart img) = None
    /\ sentParts (strategyRequest req)
       = GenAI.mkPart (Some (strategyText req)) None
         :: map inlinePart (subjectImages req)
    /\ sentParts (imageRequest p ratio imgs)
       = GenAI.mkPart (Some p) None :: map inlinePart imgs.
Proof.
  intros img req p ratio imgs. split; [|split; [|split]].
  - unfold inlinePart; cbn [GenAI.inlineData]. now rewrite split_second.
  - reflexivity.
  - unfold sentParts, strategyRequest; cbn [GenAI.contents GenAI.parts].
    now rewrite pushImages_map.
  - unfold sentParts, imageRequest; cbn [GenAI.contents GenAI.parts].
    now rewrite pushImages_map.
Qed.

(** C10 as stated fails: for the data [a,b,c] the substring after the first
    comma is [b,c], and the transmitted payload is [b]. *)
Lemma payload_stops_at_second_comma :
  afterFirstComma (data Examples.twoCommas) = Some "b,c"
  /\ GenAI.inlineData (inlinePart Examples.twoCommas)
     = Some (GenAI.mkBlob (Some "b") "image/png")
  /\ GenAI.inlineData (inlinePart Examples.twoCommas)
     <> Some (GenAI.mkBlob (afterFirstComma (data Examples.twoCommas))
                           (mimeType Examples.twoCommas)).
Proof.
  split; [reflexivity|]. split; [reflexivity|].
  vm_compute. discriminate.
Qed.

End Renderer.

(** ** The orchestrator *)

Module Orchestrator.

Import JS.
Import Types.
Import GeminiService.
Import App.
Import Observe.
Import JSFacts.
Import ServiceFacts.

Section Handlers.

Variable generateContent :
  Log -> GenAI.GenerateContentParameters -> Outcome GenAI.Response.t.
Variable JSON_parse : string -> Outcome JsValue.

(** What [renderImageOnly] does, by the outcome of the renderer. *)
Lemma renderImageOnly_run strategy st log :
  renderImageOnly generateContent strategy st log =
  let run := generateThumbnailImage generateContent strategy
               (AspectRatio_value (ratio (form st))) (subjectImages (form st)) log in
  (match fst run with
   | Resolved url =>
       mkState idle (attachImage strategy url (result st)) None (form st)
   | Rejected err =>
       mkState idle (result st) (Some (orString (message err) RENDER_FALLBACK)) (form st)
   end, snd run).
Proof.
  unfold renderImageOnly; cbn [form setError setLoadingPhase].
  destruct (generateThumbnailImage _ _ _ _ _) as [[url|err] log']; reflexivity.
Qed.


Lemma isEmpty_false (s : string) : s <> EmptyString -> isEmpty s = false.
Proof. intros H; unfold isEmpty. now apply String.eqb_neq. Qed.

Lemma generateStrategy_run req log :
  generateStrategy generateContent JSON_parse req log =
  (bind (generateContent log (strategyRequest req))
        (fun response => bind (trimmedText response) JSON_parse),
   log ++ [strategyRequest req]).
Proof.
  unfold generateStrategy, await, pure, models_generateContent.
  destruct (generateContent log (strategyRequest req)); reflexivity.
Qed.

End Handlers.


(** C2.  Whenever the title or the niche of the form is the empty string,
    [handleGenerate] sets the validation message as the error, leaves the
    phase as it was (so at idle when it was idle), leaves the current result
    as it was, and issues no request to any provider. *)
Theorem generate_requires_title_and_niche :
  forall generateContent JSON_parse st log,
    title (form st) = EmptyString \/ niche (form st) = EmptyString ->
    let out := handleGenerate generateContent JSON_parse st log in
    error (fst out) = Some VALIDATION_MESSAGE
    /\ loadingPhase (fst out) = loadingPhase st
    /\ (loadingPhase st = idle -> loadingPhase (fst out) = idle)
    /\ result (fst out) = result st
    /\ snd out = log.
Proof.
  intros gc parse st log H; cbv zeta; unfold handleGenerate.
  assert (E : isEmpty (title (form st)) || isEmpty (niche (form st)) = true).
  { apply orb_true_iff. unfold isEmpty.
    destruct H as [-> | ->]; [left | right]; reflexivity. }
  rewrite E; cbn. repeat split; auto.
Qed.

Lemma generate_requires_title_and_niche_witness :
  let out := handleGenerate (Examples.answering Examples.withPicture)
               Examples.parseNullOnly
               (Examples.initial Examples.noNiche) [] in
  error (fst out) = Some VALIDATION_MESSAGE
  /\ loadingPhase (fst out) = loadingPhase (Examples.initial Examples.noNiche)
  /\ (loadingPhase (Examples.initial Examples.noNiche) = idle ->
      loadingPhase (fst out) = idle)
  /\ result (fst out) = result (Examples.initial Examples.noNiche)
  /\ snd out = [].
Proof.
  apply (generate_requires_title_and_niche (Examples.answering Examples.withPicture)
           Examples.parseNullOnly (Examples.initial Examples.noNiche) []).
  right; reflexivity.
Defined.

(** C3.  Whenever the current result holds a strategy: if the renderer
    fails with [e], [renderImageOnly] records the message of [e] (or the
    fallback text when that message is empty), leaves the current result as
    it was, so with its strategy and with no new image, and returns to
    idle; if the renderer resolves with an image, that image is attached to
    the current result, whose strategy is unchanged, and the phase returns
    to idle. *)
Theorem render_keeps_strategy :
  forall generateContent strategy st log r,
    result st = Some r ->
    let run := generateThumbnailImage generateContent strategy
                 (AspectRatio_value (ratio (form st))) (subjectImages (form st)) log in
    let out := renderImageOnly generateContent strategy st log in
    (forall e,
       fst run = Rejected e ->
       error (fst out) = Some (orString (message e) RENDER_FALLBACK)
       /\ error (fst out) <> Some EmptyString
       /\ result (fst out) = Some r
       /\ loadingPhase (fst out) = idle)
    /\
    (forall url,
       fst run = Resolved url ->
       result (fst out) = Some (mkResult (Types.strategy r) (Some url))
       /\ loadingPhase (fst out) = idle).
Proof.
  intros gc strategy st log r Hr; cbv zeta.
  rewrite renderImageOnly_run; cbv zeta; cbn [fst].
  split.
  - intros e ->; cbn. repeat split; auto.
    intros [= H]. revert H. apply orString_nonempty. discriminate.
  - intros url ->; cbn. rewrite Hr. split; reflexivity.
Qed.

Lemma render_keeps_strategy_witness :
  let st := Examples.holding (mkResult Examples.sampleStrategy None) Examples.filledForm in
  (let out := renderImageOnly (Examples.rejecting Examples.quotaFailure)
                Examples.sampleStrategy st [] in
   error (fst out) = Some "429 RESOURCE_EXHAUSTED"
   /\ error (fst out) <> Some EmptyString
   /\ result (fst out) = Some (mkResult Examples.sampleStrategy None)
   /\ loadingPhase (fst out) = idle)
  /\
  (let out := renderImageOnly (Examples.answering Examples.withPicture)
                Examples.sampleStrategy st [] in
   result (fst out)
   = Some (mkResult Examples.sampleStrategy (Some "data:image/png;base64,iVBORw0KGgo="))
   /\ loadingPhase (fst out) = idle).
Proof.
  cbv zeta; split.
  - pose proof (render_keeps_strategy (Examples.rejecting Examples.quotaFailure)
                  Examples.sampleStrategy
                  (Examples.holding (mkResult Examples.sampleStrategy None)
                                    Examples.filledForm)
                  [] (mkResult Examples.sampleStrategy None) eq_refl) as H.
    cbv zeta in H. destruct H as [Hfail _].
    apply (Hfail Examples.quotaFailure). reflexivity.
  - pose proof (render_keeps_strategy (Examples.answering Examples.withPicture)
                  Examples.sampleStrategy
                  (Examples.holding (mkResult Examples.sampleStrategy None)
                                    Examples.filledForm)
                  [] (mkResult Examples.sampleStrategy None) eq_refl) as H.
    cbv zeta in H. destruct H as [_ Hok].
    apply (Hok "data:image/png;base64,iVBORw0KGgo="). reflexivity.
Defined.

Lemma renderImageOnly_form generateContent strategy st log :
  form (fst (renderImageOnly generateContent strategy st log)) = form st.
Proof.
  rewrite renderImageOnly_run; cbv zeta; cbn [fst].
  destruct (fst (generateThumbnailImage _ _ _ _ _)); reflexivity.
Qed.

(** Every run on a strategy whose prompt is built issues the same one
    request. *)
Lemma rerender_requests generateContent n strategy p :
  forall st log,
    promptText strategy (AspectRatio_value (ratio (form st))) = Resolved p ->
    snd (reRender generateContent n strategy st log)
    = log ++ repeat (imageRequest p (AspectRatio_value (ratio (form st)))
                       (subjectImages (form st))) n.
Proof.
  induction n as [|n IH]; intros st log Hp; cbn [reRender repeat].
  - cbn [snd]. now rewrite app_nil_r.
  - pose proof (renderImageOnly_form generateContent strategy st log) as F.
    pose proof (renderImageOnly_run generateContent strategy st log) as R.
    cbv zeta in R.
    rewrite (generateThumbnailImage_run generateContent _ _ _ _ _ Hp) in R.
    cbn [snd] in R.
    destruct (renderImageOnly generateContent strategy st log) as [st' log'].
    cbn [fst] in F. injection R as _ ->.
    rewrite (IH st' _); rewrite F; [|exact Hp].
    rewrite <- app_assoc. reflexivity.
Qed.






End Orchestrator.

(** ** The reference images of the form *)

Module FormFacts.

Import JS.
Import Types.
Import AppForm.

Lemma slice0_nonneg {A : Type} (l : list A) (n : nat) :
  slice0 l (Z.of_nat n) = firstn n l.
Proof.
  unfold slice0. destruct (Z.ltb_spec (Z.of_nat n) 0) as [H|H]; [lia|].
  now rewrite Nat2Z.id.
Qed.

Lemma addImage_images (img : ThumbnailImage) (prev : ThumbnailRequest) :
  subjectImages (addImage img prev)
  = firstn MAX_IMAGES (subjectImages prev ++ [img]).
Proof. unfold addImage, withImages; cbn [subjectImages]. apply slice0_nonneg. Qed.

Lemma addImage_fits (img : ThumbnailImage) (prev : ThumbnailRequest) :
  List.length (subjectImages prev) < MAX_IMAGES ->
  subjectImages (addImage img prev) = subjectImages prev ++ [img].
Proof.
  intros H. rewrite addImage_images. apply firstn_all2.
  rewrite length_app; cbn [List.length]. lia.
Qed.

Lemma addImage_full (img : ThumbnailImage) (prev : ThumbnailRequest) :
  List.length (subjectImages prev) = MAX_IMAGES ->
  subjectImages (addImage img prev) = subjectImages prev.
Proof.
  intros H. rewrite addImage_images, firstn_app, H, Nat.sub_diag.
  cbn [firstn]. rewrite app_nil_r. apply firstn_all2. lia.
Qed.

Lemma addImage_bound (img : ThumbnailImage) (prev : ThumbnailRequest) :
  List.length (subjectImages (addImage img prev)) <= MAX_IMAGES.
Proof. rewrite addImage_images. apply firstn_le_length. Qed.

(** X1.  A captured photo is stored as a JPEG at the end of the reference
    images when fewer than three are held, is dropped when three are held,
    and never makes the list longer than three; the other fields of the
    form are untouched. *)
Theorem capture_appends_until_full :
  forall (dataUrl : string) (prev : ThumbnailRequest),
    List.length (subjectImages (capturePhoto dataUrl prev)) <= MAX_IMAGES
    /\ (List.length (subjectImages prev) < MAX_IMAGES ->
        subjectImages (capturePhoto dataUrl prev)
        = subjectImages prev ++ [mkImage dataUrl "image/jpeg"])
    /\ (List.length (subjectImages prev) = MAX_IMAGES ->
        subjectImages (capturePhoto dataUrl prev) = subjectImages prev)
    /\ title (capturePhoto dataUrl prev) = title prev
    /\ niche (capturePhoto dataUrl prev) = niche prev
    /\ ratio (capturePhoto dataUrl prev) = ratio prev.
Proof.
  intros dataUrl prev; unfold capturePhoto.
  split; [apply addImage_bound|].
  split; [apply addImage_fits|].
  split; [apply addImage_full|].
  repeat split.
Qed.

Lemma capture_appends_until_full_witness :
  subjectImages (capturePhoto "data:image/jpeg;base64,SlBH" Examples.noNiche)
  = [Examples.photo; mkImage "data:image/jpeg;base64,SlBH" "image/jpeg"]
  /\ subjectImages
       (capturePhoto "x"
          (withImages [Examples.photo; Examples.photo; Examples.photo] initialForm))
     = [Examples.photo; Examples.photo; Examples.photo].
Proof.
  split.
  - apply (capture_appends_until_full "data:image/jpeg;base64,SlBH" Examples.noNiche).
    cbn. unfold MAX_IMAGES. lia.
  - apply (capture_appends_until_full "x"
             (withImages [Examples.photo; Examples.photo; Examples.photo] initialForm)).
    reflexivity.
Defined.

Lemma filesToProcess_free_slots (form : ThumbnailRequest) (files : list File) :
  List.length (subjectImages form) <= MAX_IMAGES ->
  filesToProcess form files
  = firstn (MAX_IMAGES - List.length (subjectImages form)) files.
Proof.
  intros H; unfold filesToProcess.
  rewrite <- Nat2Z.inj_sub by exact H. apply slice0_nonneg.
Qed.

Lemma loaded_fits (completed : list File) (form : ThumbnailRequest) :
  List.length (subjectImages form) + List.length completed <= MAX_IMAGES ->
  subjectImages (loaded completed form)
  = subjectImages form ++ map imageOfFile completed.
Proof.
  unfold loaded; revert form.
  induction completed as [|file completed IH]; intros form H; cbn [fold_left map].
  - now rewrite app_nil_r.
  - cbn [List.length] in H.
    assert (F : subjectImages (addImage (imageOfFile file) form)
                = subjectImages form ++ [imageOfFile file])
      by (apply addImage_fits; lia).
    rewrite IH; rewrite F; [now rewrite <- app_assoc|].
    rewrite length_app; cbn [List.length]. lia.
Qed.

(** X2.  When the form holds at most three reference images,
    [handleFileUpload] starts a reader for the first files only, as many as
    there are free slots; in whatever order those readers end, the images
    already held stay in place, the new ones follow in the order of
    completion, and the form then holds the smaller of three and the number
    of held plus selected images. *)
Theorem upload_fills_free_slots :
  forall (form : ThumbnailRequest) (files completed : list File),
    List.length (subjectImages form) <= MAX_IMAGES ->
    Permutation completed (filesToProcess form files) ->
    filesToProcess form files
    = firstn (MAX_IMAGES - List.length (subjectImages form)) files
    /\ subjectImages (loaded completed form)
       = subjectImages form ++ map imageOfFile completed
    /\ List.length (subjectImages (loaded completed form))
       = Nat.min MAX_IMAGES (List.length (subjectImages form) + List.length files).
Proof.
  intros form files completed H P.
  pose proof (filesToProcess_free_slots form files H) as E.
  assert (L : List.length completed
              = Nat.min (MAX_IMAGES - List.length (subjectImages form))
                        (List.length files)).
  { rewrite (Permutation_length P), E. apply length_firstn. }
  assert (F : subjectImages (loaded completed form)
              = subjectImages form ++ map imageOfFile completed)
    by (apply loaded_fits; lia).
  split; [exact E|]. split; [exact F|].
  rewrite F, length_app, length_map, L. lia.
Qed.

Lemma upload_fills_free_slots_witness :
  filesToProcess Examples.noNiche [Scenarios.portrait; Scenarios.selfie; Scenarios.logo]
  = firstn (MAX_IMAGES - 1) [Scenarios.portrait; Scenarios.selfie; Scenarios.logo]
  /\ subjectImages (loaded [Scenarios.selfie; Scenarios.portrait] Examples.noNiche)
     = [Examples.photo] ++ map imageOfFile [Scenarios.selfie; Scenarios.portrait]
  /\ List.length (subjectImages (loaded [Scenarios.selfie; Scenarios.portrait]
                                        Examples.noNiche))
     = Nat.min MAX_IMAGES (1 + 3).
Proof.
  apply (upload_fills_free_slots Examples.noNiche
           [Scenarios.portrait; Scenarios.selfie; Scenarios.logo]
           [Scenarios.selfie; Scenarios.portrait]).
  - cbn. unfold MAX_IMAGES. lia.
  - apply perm_swap.
Defined.

Lemma filterIndex_past {A : Type} (index : nat) (l : list A) (k : nat) :
  index < k -> filterIndex (fun i => negb (Nat.eqb i index)) l k = l.
Proof.
  revert k; induction l as [|x l IH]; intros k H; cbn [filterIndex]; [reflexivity|].
  destruct (Nat.eqb_spec k index); [lia|]. cbn [negb].
  rewrite IH by lia. reflexivity.
Qed.

Lemma filterIndex_removes {A : Type} (index : nat) (l : list A) (k : nat) :
  k <= index ->
  filterIndex (fun i => negb (Nat.eqb i index)) l k
  = firstn (index - k) l ++ skipn (S (index - k)) l.
Proof.
  revert k; induction l as [|x l IH]; intros k H; cbn [filterIndex].
  - now rewrite firstn_nil, skipn_nil.
  - destruct (Nat.eqb_spec k index) as [->|N]; cbn [negb].
    + rewrite Nat.sub_diag, filterIndex_past by lia. reflexivity.
    + rewrite IH by lia.
      replace (index - k) with (S (index - S k)) by lia. reflexivity.
Qed.

Lemma removeImage_images (index : nat) (prev : ThumbnailRequest) :
  subjectImages (removeImage index prev)
  = firstn index (subjectImages prev) ++ skipn (S index) (subjectImages prev).
Proof.
  unfold removeImage, withImages; cbn [subjectImages].
  rewrite filterIndex_removes by lia. now rewrite Nat.sub_0_r.
Qed.

(** X3.  [removeImage] removes exactly the image at the given position and
    keeps the others in order: a position inside the list shortens it by
    one, a position past the end leaves it as it is. *)
Theorem remove_drops_one_position :
  forall (index : nat) (prev : ThumbnailRequest),
    subjectImages (removeImage index prev)
    = firstn index (subjectImages prev) ++ skipn (S index) (subjectImages prev)
    /\ (index < List.length (subjectImages prev) ->
        S (List.length (subjectImages (removeImage index prev)))
        = List.length (subjectImages prev))
    /\ (List.length (subjectImages prev) <= index ->
        subjectImages (removeImage index prev) = subjectImages prev).
Proof.
  intros index prev.
  pose proof (removeImage_images index prev) as E.
  split; [exact E|]. split; intros H; rewrite E.
  - rewrite length_app, length_firstn, length_skipn. lia.
  - rewrite firstn_all2, skipn_all2 by lia. apply app_nil_r.
Qed.

Lemma remove_drops_one_position_witness :
  S (List.length (subjectImages (removeImage 0 Examples.noNiche)))
  = List.length (subjectImages Examples.noNiche)
  /\ subjectImages (removeImage 1 Examples.noNiche) = subjectImages Examples.noNiche.
Proof.
  split.
  - apply (remove_drops_one_position 0 Examples.noNiche). cbn. lia.
  - apply (remove_drops_one_position 1 Examples.noNiche). cbn. lia.
Defined.

(** X4.  Adding an image to a form with a free slot and then removing the
    last position gives back the images the form had. *)
Theorem add_then_remove_last :
  forall (img : ThumbnailImage) (prev : ThumbnailRequest),
    List.length (subjectImages prev) < MAX_IMAGES ->
    subjectImages (removeImage (List.length (subjectImages prev)) (addImage img prev))
    = subjectImages prev.
Proof.
  intros img prev H.
  rewrite removeImage_images, (addImage_fits _ _ H).
  rewrite firstn_app, Nat.sub_diag, firstn_all; cbn [firstn].
  rewrite skipn_all2 by (rewrite length_app; cbn [List.length]; lia).
  now rewrite !app_nil_r.
Qed.

Lemma add_then_remove_last_witness :
  subjectImages (removeImage (List.length (subjectImages Examples.noNiche))
                   (addImage Examples.twoCommas Examples.noNiche))
  = subjectImages Examples.noNiche.
Proof.
  apply (add_then_remove_last Examples.twoCommas Examples.noNiche).
  cbn. unfold MAX_IMAGES. lia.
Defined.

Lemma act_bound (a : Action) (f : ThumbnailRequest) :
  List.length (subjectImages f) <= MAX_IMAGES ->
  List.length (subjectImages (act a f)) <= MAX_IMAGES.
Proof.
  intros H; destruct a; cbn [act subjectImages]; try exact H;
    try apply addImage_bound.
  rewrite removeImage_images, length_app, length_firstn, length_skipn. lia.
Qed.

Lemma run_bound (actions : list Action) (f : ThumbnailRequest) :
  List.length (subjectImages f) <= MAX_IMAGES ->
  List.length (subjectImages (run actions f)) <= MAX_IMAGES.
Proof.
  unfold run; revert f; induction actions as [|a actions IH]; intros f H;
    cbn [fold_left]; [exact H|].
  apply IH, act_bound, H.
Qed.

(** X5.  Whatever the user does to the form, in any order and any number of
    times (editing fields, capturing photos, loading files, removing
    images), the form never holds more than three reference images. *)
Theorem at_most_three_images :
  forall actions : list Action,
    List.length (subjectImages (run actions initialForm)) <= MAX_IMAGES.
Proof.
  intros actions. apply run_bound. cbn. unfold MAX_IMAGES. lia.
Qed.

End FormFacts.

(** ** What the two prompts say *)

Module Prompts.

Import JS.
Import Types.
Import GeminiService.
Import Observe.
Import JSFacts.
Import ServiceFacts.

Lemma append_assoc (a b c : string) : ((a ++ b) ++ c = a ++ (b ++ c))%string.
Proof. induction a as [|x a IH]; cbn [append]; [reflexivity | now rewrite IH]. Qed.

Lemma prefix_refl (s : string) : String.prefix s s = true.
Proof.
  induction s as [|c s IH]; cbn [String.prefix]; [reflexivity|].
  destruct (Ascii.ascii_dec c c); [exact IH | congruence].
Qed.

Lemma includes_self (s : string) : includes s s = true.
Proof. apply includes_prefix, prefix_refl. Qed.

Lemma includes_segment (a n b : string) : includes (a ++ (n ++ b)) n = true.
Proof. apply includes_app_r, includes_app_l, includes_self. Qed.

(** A keyed slot of a template: [indent key v sfx] followed by the rest. *)
Lemma includes_keyed (indent key v sfx rest : string) :
  includes ((indent ++ key) ++ (v ++ (sfx ++ rest))) (key ++ v ++ sfx) = true.
Proof.
  replace ((indent ++ key) ++ (v ++ (sfx ++ rest)))%string
    with (indent ++ ((key ++ v ++ sfx) ++ rest))%string
    by (now rewrite !append_assoc).
  apply includes_segment.
Qed.

Lemma includes_keyed2 (indent k1 k2 v sfx rest : string) :
  includes ((indent ++ k1) ++ (k2 ++ (v ++ (sfx ++ rest)))) (k1 ++ k2 ++ v ++ sfx)
  = true.
Proof.
  replace ((indent ++ k1) ++ (k2 ++ (v ++ (sfx ++ rest))))%string
    with (indent ++ ((k1 ++ k2 ++ v ++ sfx) ++ rest))%string
    by (now rewrite !append_assoc).
  apply includes_segment.
Qed.

(** Strips leading segments of a right-nested concatenation until [found]
    closes the goal. *)
Ltac slot found := first [ found | apply includes_app_r; slot found ].

Lemma promptTemplate_slots ratio e i pr m t c1 c2 d b :
  let T := promptTemplate ratio e i pr m t c1 c2 d b in
  includes T ("Viral " ++ ratio ++ " YouTube/Social Media Thumbnail.") = true
  /\ includes T ("Subject: " ++ e ++ ".") = true
  /\ includes T ("Focus: " ++ i ++ ".") = true
  /\ includes T ("Props: " ++ pr ++ ".") = true
  /\ includes T ("saying " ++ dq ++ m ++ dq) = true
  /\ includes T ("placed at " ++ t ++ ".") = true
  /\ includes T ("vibrant " ++ c1 ++ " and ") = true
  /\ includes T ("and " ++ c2 ++ " colors.") = true
  /\ includes T ("directional " ++ d ++ ".") = true
  /\ includes T ("Background: " ++ b ++ ".") = true.
Proof.
  cbv zeta; unfold promptTemplate.
  repeat split.
  - slot ltac:(apply (includes_keyed "        " "Viral " ratio
                        " YouTube/Social Media Thumbnail.")).
  - slot ltac:(apply (includes_keyed "        " "Subject: " e ".")).
  - slot ltac:(apply (includes_keyed "        " "Focus: " i ".")).
  - slot ltac:(apply (includes_keyed "        " "Props: " pr ".")).
  - slot ltac:(apply (includes_keyed2 "        Text: Giant 3D bold text "
                        "saying " dq m dq)).
  - slot ltac:(apply (includes_keyed " " "placed at " t ".")).
  - slot ltac:(apply (includes_keyed
                        "        Aesthetics: Extremely high contrast, "
                        "vibrant " c1 " and ")).
  - slot ltac:(apply (includes_keyed " " "and " c2 " colors.")).
  - slot ltac:(apply (includes_keyed "        Glow effects, thick outlines, "
                        "directional " d ".")).
  - slot ltac:(apply (includes_keyed "        " "Background: " b ".")).
Qed.

Lemma or_string (s : string) (d : JsValue) :
  s <> EmptyString -> or (JString s) d = JString s.
Proof.
  intros H; unfold or; cbn [truthy].
  destruct (String.eqb_spec s EmptyString); [contradiction | reflexivity].
Qed.

Lemma or_falsy (v d : JsValue) : truthy v = false -> or v d = d.
Proof. unfold or; now intros ->. Qed.

Lemma orString_keep (a b : string) : a <> EmptyString -> orString a b = a.
Proof.
  intros H; unfold orString.
  destruct (String.eqb_spec a EmptyString); [contradiction | reflexivity].
Qed.

Lemma orString_default (a b : string) : a = EmptyString -> orString a b = b.
Proof. now intros ->. Qed.

Lemma coerced_array (strategy : ThumbnailDesign) (key : string) (l : list JsValue) :
  visualElement strategy key = JArray l -> coerced strategy key = l.
Proof. unfold coerced; now intros ->. Qed.

Lemma shown_string (s fallback : string) :
  s <> EmptyString -> shown (JString s) fallback = Resolved s.
Proof. intros N; unfold shown. now rewrite (or_string _ _ N). Qed.

Lemma shown_falsy (v : JsValue) (fallback : string) :
  truthy v = false -> shown v fallback = Resolved fallback.
Proof. intros F; unfold shown. now rewrite (or_falsy _ _ F). Qed.

Lemma shown_any_string (s : string) : shown (JString s) EmptyString = Resolved s.
Proof.
  destruct (String.eqb_spec s EmptyString) as [->|N];
    [reflexivity | exact (shown_string _ _ N)].
Qed.

Lemma joined_text (l : list JsValue) (text fallback : string) :
  join l ", " = Resolved text ->
  joined l fallback = Resolved (orString text fallback).
Proof. intros H; unfold joined. now rewrite H. Qed.

(** The elements of an array of strings join without an error. *)
Lemma join_strings (texts : list string) (sep : string) :
  join (map JString texts) sep = Resolved (String.concat sep texts).
Proof.
  unfold join.
  assert (E : joinElements (map JString texts) = Resolved texts).
  { induction texts as [|x texts IH]; cbn [map joinElements]; [reflexivity|].
    cbn [joinElement ToString bind]. now rewrite IH. }
  now rewrite E.
Qed.

(** X6.  Every prompt the renderer builds names the ratio and shows each
    field that is present: a non-empty string at [visualElements.expression],
    [concept.idea], [layoutInstructions.textPlacement],
    [colorPalette.primary], [colorPalette.accent] or
    [visualElements.backgroundStyle] appears after its label, a string
    [mainText] appears between double quotes, and an array at
    [visualElements.objects] or [visualElements.directionalElements] whose
    elements join to a non-empty text appears as that text; a prompt is
    built for every strategy document whose interpolated values can be
    converted to strings. *)
Theorem prompt_shows_present_fields :
  forall strategy ratio,
    (forall p,
       promptText strategy ratio = Resolved p ->
       includes p ("Viral " ++ ratio ++ " YouTube/Social Media Thumbnail.") = true
       /\ (forall s, nested strategy "visualElements" "expression" = JString s ->
                     s <> EmptyString ->
                     includes p ("Subject: " ++ s ++ ".") = true)
       /\ (forall s, nested strategy "concept" "idea" = JString s ->
                     s <> EmptyString ->
                     includes p ("Focus: " ++ s ++ ".") = true)
       /\ (forall l text, visualElement strategy "objects" = JArray l ->
                          join l ", " = Resolved text ->
                          text <> EmptyString ->
                          includes p ("Props: " ++ text ++ ".") = true)
       /\ (forall s, optMember strategy "mainText" = JString s ->
                     includes p ("saying " ++ dq ++ s ++ dq) = true)
       /\ (forall s, nested strategy "layoutInstructions" "textPlacement" = JString s ->
                     s <> EmptyString ->
                     includes p ("placed at " ++ s ++ ".") = true)
       /\ (forall s, nested strategy "colorPalette" "primary" = JString s ->
                     s <> EmptyString ->
                     includes p ("vibrant " ++ s ++ " and ") = true)
       /\ (forall s, nested strategy "colorPalette" "accent" = JString s ->
                     s <> EmptyString ->
                     includes p ("and " ++ s ++ " colors.") = true)
       /\ (forall l text, visualElement strategy "directionalElements" = JArray l ->
                          join l ", " = Resolved text ->
                          text <> EmptyString ->
                          includes p ("directional " ++ text ++ ".") = true)
       /\ (forall s, nested strategy "visualElements" "backgroundStyle" = JString s ->
                     s <> EmptyString ->
                     includes p ("Background: " ++ s ++ ".") = true))
    /\ (isNullish strategy = false ->
        promptConverts strategy = true ->
        exists p, promptText strategy ratio = Resolved p).
Proof.
  intros strategy ratio. split; [|apply promptText_resolves].
  intros p H. apply promptText_resolved_inv in H as [_ H].
  apply promptOf_resolved_inv in H
    as (e & i & pr & m & t & c1 & c2 & d & b
        & He & Hi & Hpr & Hm & Ht & Hc1 & Hc2 & Hd & Hb & ->).
  destruct (promptTemplate_slots ratio e i pr m t c1 c2 d b)
    as (Sr & Se & Si & So & Sm & St & Sp & Sa & Sd & Sb).
  split; [exact Sr|].
  split; [intros s E N; rewrite E, (shown_string _ _ N) in He;
          injection He as <-; exact Se|].
  split; [intros s E N; rewrite E, (shown_string _ _ N) in Hi;
          injection Hi as <-; exact Si|].
  split; [intros l text E J N;
          rewrite (coerced_array _ _ _ E), (joined_text _ _ _ J),
            (orString_keep _ _ N) in Hpr;
          injection Hpr as <-; exact So|].
  split; [intros s E; rewrite E, shown_any_string in Hm;
          injection Hm as <-; exact Sm|].
  split; [intros s E N; rewrite E, (shown_string _ _ N) in Ht;
          injection Ht as <-; exact St|].
  split; [intros s E N; rewrite E, (shown_string _ _ N) in Hc1;
          injection Hc1 as <-; exact Sp|].
  split; [intros s E N; rewrite E, (shown_string _ _ N) in Hc2;
          injection Hc2 as <-; exact Sa|].
  split; [intros l text E J N;
          rewrite (coerced_array _ _ _ E), (joined_text _ _ _ J),
            (orString_keep _ _ N) in Hd;
          injection Hd as <-; exact Sd|].
  intros s E N; rewrite E, (shown_string _ _ N) in Hb;
    injection Hb as <-; exact Sb.
Qed.

Lemma prompt_shows_present_fields_witness :
  exists p,
    promptText Scenarios.fullStrategy "16:9" = Resolved p
    /\ includes p "Subject: shocked face." = true
    /\ includes p "Props: rope, helmet." = true
    /\ includes p ("saying " ++ dq ++ "I DID IT" ++ dq) = true
    /\ includes p "vibrant #ff0000 and " = true
    /\ includes p "directional red arrow." = true.
Proof.
  destruct (prompt_shows_present_fields Scenarios.fullStrategy "16:9")
    as (Hshown & Hexists).
  destruct (Hexists eq_refl eq_refl) as (p & Hp).
  destruct (Hshown p Hp) as (_ & He & _ & Ho & Hm & _ & Hc & _ & Hd & _).
  exists p. split; [exact Hp|].
  split; [apply (He "shocked face"); [reflexivity | discriminate]|].
  split; [apply (Ho [JString "rope"; JString "helmet"] "rope, helmet");
          [reflexivity | reflexivity | discriminate]|].
  split; [apply (Hm "I DID IT"); reflexivity|].
  split; [apply (Hc "#ff0000"); [reflexivity | discriminate]|].
  apply (Hd [JString "red arrow"] "red arrow");
    [reflexivity | reflexivity | discriminate].
Defined.

(** X7.  In every prompt the renderer builds, a field that is absent or
    falsy is replaced by its default: [person], [intense scene], [center],
    [red], [yellow], [vibrant gradient], an empty quotation for [mainText];
    and an array of props or of directional cues that joins to the empty
    string (an empty array, or a single [null] or empty string) reads
    [none], respectively [arrows]. *)
Theorem prompt_defaults :
  forall strategy ratio p,
    promptText strategy ratio = Resolved p ->
    (truthy (nested strategy "visualElements" "expression") = false ->
     includes p "Subject: person." = true)
    /\ (truthy (nested strategy "concept" "idea") = false ->
        includes p "Focus: intense scene." = true)
    /\ (join (coerced strategy "objects") ", " = Resolved EmptyString ->
        includes p "Props: none." = true)
    /\ (truthy (optMember strategy "mainText") = false ->
        includes p ("saying " ++ dq ++ dq) = true)
    /\ (truthy (nested strategy "layoutInstructions" "textPlacement") = false ->
        includes p "placed at center." = true)
    /\ (truthy (nested strategy "colorPalette" "primary") = false ->
        includes p "vibrant red and " = true)
    /\ (truthy (nested strategy "colorPalette" "accent") = false ->
        includes p "and yellow colors." = true)
    /\ (join (coerced strategy "directionalElements") ", " = Resolved EmptyString ->
        includes p "directional arrows." = true)
    /\ (truthy (nested strategy "visualElements" "backgroundStyle") = false ->
        includes p "Background: vibrant gradient." = true).
Proof.
  intros strategy ratio p H. apply promptText_resolved_inv in H as [_ H].
  apply promptOf_resolved_inv in H
    as (e & i & pr & m & t & c1 & c2 & d & b
        & He & Hi & Hpr & Hm & Ht & Hc1 & Hc2 & Hd & Hb & ->).
  destruct (promptTemplate_slots ratio e i pr m t c1 c2 d b)
    as (_ & Se & Si & So & Sm & St & Sp & Sa & Sd & Sb).
  split; [intros F; rewrite (shown_falsy _ _ F) in He;
          injection He as <-; exact Se|].
  split; [intros F; rewrite (shown_falsy _ _ F) in Hi;
          injection Hi as <-; exact Si|].
  split; [intros J; rewrite (joined_text _ _ _ J) in Hpr;
          injection Hpr as <-; exact So|].
  split; [intros F; rewrite (shown_falsy _ _ F) in Hm;
          injection Hm as <-; exact Sm|].
  split; [intros F; rewrite (shown_falsy _ _ F) in Ht;
          injection Ht as <-; exact St|].
  split; [intros F; rewrite (shown_falsy _ _ F) in Hc1;
          injection Hc1 as <-; exact Sp|].
  split; [intros F; rewrite (shown_falsy _ _ F) in Hc2;
          injection Hc2 as <-; exact Sa|].
  split; [intros J; rewrite (joined_text _ _ _ J) in Hd;
          injection Hd as <-; exact Sd|].
  intros F; rewrite (shown_falsy _ _ F) in Hb; injection Hb as <-; exact Sb.
Qed.

Lemma prompt_defaults_witness :
  exists p,
    promptText Scenarios.blankArrays "1:1" = Resolved p
    /\ includes p "Subject: person." = true
    /\ includes p "Props: none." = true
    /\ includes p ("saying " ++ dq ++ dq) = true
    /\ includes p "and yellow colors." = true
    /\ includes p "directional arrows." = true.
Proof.
  destruct (promptText Scenarios.blankArrays "1:1") as [p|e] eqn:Hp;
    [|discriminate].
  destruct (prompt_defaults Scenarios.blankArrays "1:1" p Hp)
    as (He & _ & Ho & Hm & _ & _ & Ha & Hd & _).
  exists p. split; [reflexivity|].
  split; [apply He; reflexivity|].
  split; [apply Ho; reflexivity|].
  split; [apply Hm; reflexivity|].
  split; [apply Ha; reflexivity|].
  apply Hd; reflexivity.
Defined.

(** X8.  The request of the synthesizer carries the instruction text as
    its first part, followed by one part per reference image; the text
    quotes the title, the niche and the emotion of the request, names the
    ratio twice, gives the number of reference images in decimal, and quotes
    the subject description, or [Not specified] when the description is
    absent or empty. *)
Theorem strategy_prompt_carries_request :
  forall req : ThumbnailRequest,
    let T := strategyText req in
    sentPrompt (strategyRequest req) = Some T
    /\ List.length (sentParts (strategyRequest req))
       = S (List.length (subjectImages req))
    /\ includes T ("concept for " ++ AspectRatio_value (ratio req) ++ " aspect ratio.")
       = true
    /\ includes T ("Title: " ++ dq ++ title req ++ dq) = true
    /\ includes T ("Niche: " ++ dq ++ niche req ++ dq) = true
    /\ includes T ("Emotion: " ++ dq ++ Emotion_value (emotion req) ++ dq) = true
    /\ includes T ("Subject: " ++ dq
                   ++ orOptString (subjectDescription req) "Not specified" ++ dq)
       = true
    /\ (subjectDescription req = None \/ subjectDescription req = Some EmptyString ->
        includes T ("Subject: " ++ dq ++ "Not specified" ++ dq) = true)
    /\ includes T ("Respect the " ++ AspectRatio_value (ratio req)
                   ++ " aspect ratio in layout instructions.") = true
    /\ includes T ("providing " ++ string_of_nat (List.length (subjectImages req))
                   ++ " reference image(s).") = true.
Proof.
  intros req; cbv zeta.
  assert (S1 : includes (strategyText req)
                 ("Subject: " ++ dq
                  ++ orOptString (subjectDescription req) "Not specified" ++ dq)
               = true).
  { unfold strategyText.
    slot ltac:(apply (includes_keyed2 "        " "Subject: " dq _ dq)). }
  split.
  { unfold sentPrompt, strategyRequest; cbn [GenAI.contents GenAI.parts].
    now rewrite pushImages_map. }
  split.
  { unfold sentParts, strategyRequest; cbn [GenAI.contents GenAI.parts].
    rewrite pushImages_map; cbn [app List.length]. now rewrite length_map. }
  split.
  { unfold strategyText.
    slot ltac:(apply (includes_keyed
                        "        OBJECTIVE: Design a viral, click-optimized "
                        "concept for " _ " aspect ratio.")). }
  split.
  { unfold strategyText.
    slot ltac:(apply (includes_keyed2 "        " "Title: " dq _ dq)). }
  split.
  { unfold strategyText.
    slot ltac:(apply (includes_keyed2 "        " "Niche: " dq _ dq)). }
  split.
  { unfold strategyText.
    slot ltac:(apply (includes_keyed2 "        " "Emotion: " dq _ dq)). }
  split; [exact S1|].
  split.
  { intros [E|E]; rewrite E in S1; exact S1. }
  split.
  { unfold strategyText.
    slot ltac:(apply (includes_keyed "        5. " "Respect the " _
                        " aspect ratio in layout instructions.")). }
  unfold strategyText.
  slot ltac:(apply (includes_keyed "        IMPORTANT: I am " "providing " _
                      " reference image(s).")).
Qed.

Lemma strategy_prompt_carries_request_witness :
  includes (strategyText AppForm.initialForm)
           ("Subject: " ++ dq ++ "Not specified" ++ dq) = true
  /\ includes (strategyText Examples.filledForm)
              ("Subject: " ++ dq ++ "Not specified" ++ dq) = true.
Proof.
  split.
  - pose proof (strategy_prompt_carries_request AppForm.initialForm) as H.
    cbv zeta in H. destruct H as (_ & _ & _ & _ & _ & _ & _ & Hd & _).
    apply Hd. right; reflexivity.
  - pose proof (strategy_prompt_carries_request Examples.filledForm) as H.
    cbv zeta in H. destruct H as (_ & _ & _ & _ & _ & _ & _ & Hd & _).
    apply Hd. left; reflexivity.
Defined.

End Prompts.

(** ** The pipeline end to end, and what the component shows of it *)

Module Pipeline.

Import JS.
Import Types.
Import GeminiService.
Import App.
Import AppView.
Import Observe.
Import JSFacts.
Import ServiceFacts.

Section Runs.

Variable generateContent :
  Log -> GenAI.GenerateContentParameters -> Outcome GenAI.Response.t.
Variable JSON_parse : string -> Outcome JsValue.

(** [handleGenerate] past its guard, by the outcome of the synthesizer. *)
Lemma handleGenerate_run st log :
  title (form st) <> EmptyString ->
  niche (form st) <> EmptyString ->
  handleGenerate generateContent JSON_parse st log =
  match generateStrategy generateContent JSON_parse (form st) log with
  | (Resolved v, log1) =>
      renderImageOnly generateContent v
        (mkState strategizing (Some (mkResult v None)) None (form st)) log1
  | (Rejected e, log1) =>
      (mkState idle None (Some (orString (message e) STRATEGY_FALLBACK)) (form st),
       log1)
  end.
Proof.
  intros Ht Hn; unfold handleGenerate.
  rewrite (Orchestrator.isEmpty_false _ Ht), (Orchestrator.isEmpty_false _ Hn).
  cbn [orb form setError setLoadingPhase setResult].
  destruct (generateStrategy generateContent JSON_parse (form st) log)
    as [[v|e] log1]; reflexivity.
Qed.

Lemma generateStrategy_parsed req log response t :
  generateContent log (strategyRequest req) = Resolved response ->
  GenAI.Response.text response = Some t ->
  generateStrategy generateContent JSON_parse req log
  = (JSON_parse (trim t), log ++ [strategyRequest req]).
Proof.
  intros Hr Ht. rewrite Orchestrator.generateStrategy_run, Hr; cbn [bind].
  unfold trimmedText. rewrite Ht. reflexivity.
Qed.

(** A resolved render is a data URL, so never the empty string. *)
Lemma render_url_not_empty strategy ratio imgs log url :
  fst (generateThumbnailImage generateContent strategy ratio imgs log) = Resolved url ->
  isEmpty url = false.
Proof.
  rewrite generateThumbnailImage_catch; cbn [fst].
  destruct (promptText strategy ratio) as [p|e] eqn:Hp.
  - rewrite (renderBody_run generateContent _ _ _ _ _ Hp); cbn [fst].
    destruct (generateContent log (imageRequest p ratio imgs)) as [response|e];
      cbn [bind tryCatch]; [|intros H; now apply onRenderError_rejects in H].
    unfold extractImage.
    destruct (firstCandidateParts response) as [ps|]; cbn [tryCatch];
      [|intros H; now apply onRenderError_rejects in H].
    destruct (scanParts ps) as [u|e] eqn:Hs; cbn [tryCatch];
      [|intros H; now apply onRenderError_rejects in H].
    intros [= <-]. pose proof (scanParts_prefix _ _ Hs) as P.
    destruct u; [discriminate | reflexivity].
  - rewrite (renderBody_no_call generateContent _ _ _ _ _ Hp); cbn [fst tryCatch].
    intros H; now apply onRenderError_rejects in H.
Qed.

End Runs.

(** A render whose cards mount shows the picture area; a render whose
    cards throw leaves nothing. *)
Lemma preview_mounted acceptsChild acceptsStyle st :
  (forall r, result st = Some r ->
             truthy (Types.strategy r) = true ->
             cardsMount acceptsChild acceptsStyle (Types.strategy r) = true) ->
  preview acceptsChild acceptsStyle st = pictureArea st.
Proof.
  intros H; unfold preview. destruct (result st) as [r|]; [|reflexivity].
  destruct (truthy (Types.strategy r)) eqn:T; [|reflexivity].
  now rewrite (H r eq_refl T).
Qed.

Lemma preview_unmounted acceptsChild acceptsStyle st r :
  result st = Some r ->
  truthy (Types.strategy r) = true ->
  cardsMount acceptsChild acceptsStyle (Types.strategy r) = false ->
  preview acceptsChild acceptsStyle st = Unmounted.
Proof. intros Hr T C; unfold preview. now rewrite Hr, T, C. Qed.



(** X10.  When the synthesizer resolves with [v] and the renderer then
    fails with [e], [handleGenerate] ends idle with the result holding [v]
    and no image and with the message of [e] (or the fallback text) as the
    error.  If [v] is truthy and its cards mount, the component then shows
    the retry panel for [v], whose button renders [v] again; if [v] is
    truthy and its cards throw, the component is unmounted. *)
Theorem generate_keeps_strategy_when_render_fails :
  forall generateContent JSON_parse acceptsChild acceptsStyle st log v log1 e,
    title (form st) <> EmptyString ->
    niche (form st) <> EmptyString ->
    generateStrategy generateContent JSON_parse (form st) log = (Resolved v, log1) ->
    fst (generateThumbnailImage generateContent v
           (AspectRatio_value (ratio (form st))) (subjectImages (form st)) log1)
    = Rejected e ->
    let out := handleGenerate generateContent JSON_parse st log in
    fst out
    = mkState idle (Some (mkResult v None))
        (Some (orString (message e) RENDER_FALLBACK)) (form st)
    /\ (truthy v = true ->
        cardsMount acceptsChild acceptsStyle v = true ->
        preview acceptsChild acceptsStyle (fst out) = RetryPanel v
        /\ forall log', pressRetry acceptsChild acceptsStyle generateContent
                          (fst out) log'
                        = renderImageOnly generateContent v (fst out) log')
    /\ (truthy v = true ->
        cardsMount acceptsChild acceptsStyle v = false ->
        preview acceptsChild acceptsStyle (fst out) = Unmounted).
Proof.
  intros gc parse acceptsChild acceptsStyle st log v log1 e Ht Hn Hs Hr; cbv zeta.
  assert (E : fst (handleGenerate gc parse st log)
              = mkState idle (Some (mkResult v None))
                  (Some (orString (message e) RENDER_FALLBACK)) (form st)).
  { rewrite (handleGenerate_run gc parse st log Ht Hn), Hs.
    rewrite Orchestrator.renderImageOnly_run; cbv zeta; cbn [form result fst].
    rewrite Hr. reflexivity. }
  split; [exact E|]. rewrite E. split.
  - intros T C.
    assert (P : preview acceptsChild acceptsStyle
                  (mkState idle (Some (mkResult v None))
                     (Some (orString (message e) RENDER_FALLBACK)) (form st))
                = RetryPanel v).
    { rewrite preview_mounted; [|intros r [= <-] _; exact C].
      unfold pictureArea; cbn. now rewrite T. }
    split; [exact P|]. intros log'. unfold pressRetry. now rewrite P.
  - intros T C. unfold preview; cbn [result Types.strategy]. now rewrite T, C.
Qed.

Lemma generate_keeps_strategy_when_render_fails_witness :
  let provider :=
    Scenarios.scripted (Resolved (Scenarios.textAnswer "{}"))
                       (Rejected Examples.quotaFailure) in
  let out := handleGenerate provider Scenarios.parseSome
               (Examples.initial Examples.filledForm) [] in
  fst out
  = mkState idle (Some (mkResult (JObject []) None))
      (Some "429 RESOURCE_EXHAUSTED") Examples.filledForm
  /\ preview Scenarios.refusesObjects convertible (fst out) = RetryPanel (JObject []).
Proof.
  cbv zeta.
  pose proof (generate_keeps_strategy_when_render_fails
                (Scenarios.scripted (Resolved (Scenarios.textAnswer "{}"))
                                    (Rejected Examples.quotaFailure))
                Scenarios.parseSome Scenarios.refusesObjects convertible
                (Examples.initial Examples.filledForm) []
                (JObject []) [strategyRequest Examples.filledForm]
                Examples.quotaFailure) as H.
  cbv zeta in H. destruct H as (H1 & H2 & _); try reflexivity.
  - discriminate.
  - discriminate.
  - split; [exact H1 | apply H2; reflexivity].
Defined.

(** X11.  Past its guard, [handleGenerate] always ends idle with the form
    untouched, and has issued exactly one reasoning request, followed by at
    most one image request, which is built from the form's ratio and
    reference images. *)
Theorem generate_request_order :
  forall generateContent JSON_parse st log,
    title (form st) <> EmptyString ->
    niche (form st) <> EmptyString ->
    let out := handleGenerate generateContent JSON_parse st log in
    loadingPhase (fst out) = idle
    /\ form (fst out) = form st
    /\ (snd out = log ++ [strategyRequest (form st)]
        \/ exists p,
             snd out = log ++ [strategyRequest (form st);
                               imageRequest p (AspectRatio_value (ratio (form st)))
                                 (subjectImages (form st))]).
Proof.
  intros gc parse st log Ht Hn; cbv zeta.
  rewrite (handleGenerate_run gc parse st log Ht Hn).
  rewrite Orchestrator.generateStrategy_run.
  destruct (bind (gc log (strategyRequest (form st)))
                 (fun response => bind (trimmedText response) parse)) as [v|e].
  - rewrite Orchestrator.renderImageOnly_run; cbv zeta; cbn [form result fst snd].
    destruct (promptText v (AspectRatio_value (ratio (form st)))) as [p|e] eqn:Hp.
    + rewrite (generateThumbnailImage_run gc _ _ _ _ _ Hp); cbn [fst snd].
      split; [|split; [|right; exists p; now rewrite <- app_assoc]].
      * destruct (tryCatch _ _); reflexivity.
      * destruct (tryCatch _ _); reflexivity.
    + rewrite (generateThumbnailImage_no_call gc _ _ _ _ _ Hp); cbn [fst snd].
      split; [|split; [|left; reflexivity]].
      * destruct (onRenderError e); reflexivity.
      * destruct (onRenderError e); reflexivity.
  - cbn. repeat split. left; reflexivity.
Qed.

Lemma generate_request_order_witness :
  let out := handleGenerate (Examples.answering Examples.proseAnswer)
               Examples.parseNullOnly (Examples.initial Examples.filledForm) [] in
  loadingPhase (fst out) = idle
  /\ form (fst out) = Examples.filledForm
  /\ (snd out = [] ++ [strategyRequest Examples.filledForm]
      \/ exists p,
           snd out = [] ++ [strategyRequest Examples.filledForm;
                            imageRequest p "16:9" []]).
Proof.
  apply (generate_request_order (Examples.answering Examples.proseAnswer)
           Examples.parseNullOnly (Examples.initial Examples.filledForm) []);
    discriminate.
Defined.

(** X12.  When the text of the reasoning provider parses to [null] (or the
    synthesizer otherwise resolves with [null] or [undefined]),
    [handleGenerate] stores that value as the strategy of the result,
    issues no image request, records the type error of the failed property
    read, and the preview shows neither a picture nor the retry panel. *)
Theorem generate_null_strategy :
  forall generateContent JSON_parse acceptsChild acceptsStyle st log response t v,
    title (form st) <> EmptyString ->
    niche (form st) <> EmptyString ->
    generateContent log (strategyRequest (form st)) = Resolved response ->
    GenAI.Response.text response = Some t ->
    JSON_parse (trim t) = Resolved v ->
    isNullish v = true ->
    handleGenerate generateContent JSON_parse st log
    = (mkState idle (Some (mkResult v None))
         (Some (cannotRead v "visualElements")) (form st),
       log ++ [strategyRequest (form st)])
    /\ preview acceptsChild acceptsStyle
         (fst (handleGenerate generateContent JSON_parse st log)) = Blank.
Proof.
  intros gc parse acceptsChild acceptsStyle st log response t v
         Ht Hn Hr Htext Hparse Hv.
  assert (E : handleGenerate gc parse st log
              = (mkState idle (Some (mkResult v None))
                   (Some (cannotRead v "visualElements")) (form st),
                 log ++ [strategyRequest (form st)])).
  { rewrite (handleGenerate_run gc parse st log Ht Hn).
    rewrite (generateStrategy_parsed gc parse _ _ _ _ Hr Htext), Hparse.
    rewrite Orchestrator.renderImageOnly_run; cbv zeta; cbn [form result].
    rewrite (generateThumbnailImage_no_call gc _ _ _ _ _
               (promptText_rejected v _ Hv)).
    destruct v; try discriminate; reflexivity. }
  split; [exact E|]. rewrite E.
  destruct v; try discriminate; reflexivity.
Qed.

Lemma generate_null_strategy_witness :
  handleGenerate (Examples.answering (Scenarios.textAnswer "null"))
    Scenarios.parseSome (Examples.initial Examples.filledForm) []
  = (mkState idle (Some (mkResult JNull None))
       (Some "Cannot read properties of null (reading 'visualElements')")
       Examples.filledForm,
     [] ++ [strategyRequest Examples.filledForm])
  /\ preview Scenarios.refusesObjects convertible
       (fst (handleGenerate (Examples.answering (Scenarios.textAnswer "null"))
               Scenarios.parseSome (Examples.initial Examples.filledForm) []))
     = Blank.
Proof.
  apply (generate_null_strategy (Examples.answering (Scenarios.textAnswer "null"))
           Scenarios.parseSome Scenarios.refusesObjects convertible
           (Examples.initial Examples.filledForm) []
           (Scenarios.textAnswer "null") "null" JNull);
    first [discriminate | reflexivity].
Defined.

(** X13.  When the reasoning provider rejects the request with [e],
    [generateStrategy] rejects with [e] itself, also when the message of [e]
    contains [SAFETY] (only the renderer rewrites such errors);
    [handleGenerate] then ends idle with no result, with the message of [e]
    (or the fallback text when it is empty) as the error, and without any
    image request. *)
Theorem reasoning_failure_is_not_rewritten :
  forall generateContent JSON_parse st log e,
    title (form st) <> EmptyString ->
    niche (form st) <> EmptyString ->
    generateContent log (strategyRequest (form st)) = Rejected e ->
    generateStrategy generateContent JSON_parse (form st) log
    = (Rejected e, log ++ [strategyRequest (form st)])
    /\ handleGenerate generateContent JSON_parse st log
       = (mkState idle None (Some (orString (message e) STRATEGY_FALLBACK)) (form st),
          log ++ [strategyRequest (form st)])
    /\ (message e <> EmptyString ->
        error (fst (handleGenerate generateContent JSON_parse st log))
        = Some (message e)).
Proof.
  intros gc parse st log e Ht Hn Hr.
  assert (G : generateStrategy gc parse (form st) log
              = (Rejected e, log ++ [strategyRequest (form st)]))
    by (rewrite Orchestrator.generateStrategy_run, Hr; reflexivity).
  assert (E : handleGenerate gc parse st log
              = (mkState idle None (Some (orString (message e) STRATEGY_FALLBACK))
                   (form st),
                 log ++ [strategyRequest (form st)]))
    by (rewrite (handleGenerate_run gc parse st log Ht Hn), G; reflexivity).
  split; [exact G|]. split; [exact E|].
  intros N. rewrite E; cbn [fst error]. now rewrite (Prompts.orString_keep _ _ N).
Qed.

Lemma reasoning_failure_is_not_rewritten_witness :
  error (fst (handleGenerate (Examples.rejecting Examples.safetyFailure)
                Examples.parseNullOnly (Examples.initial Examples.filledForm) []))
  = Some "Request blocked: SAFETY".
Proof.
  refine (proj2 (proj2 (reasoning_failure_is_not_rewritten
                          (Examples.rejecting Examples.safetyFailure)
                          Examples.parseNullOnly
                          (Examples.initial Examples.filledForm) []
                          Examples.safetyFailure _ _ _)) _);
    first [discriminate | reflexivity].
Defined.

(** X14.  On a strategy that is [null] or [undefined] the renderer issues no
    request at all and rejects with the type error of the first property
    read. *)
Theorem render_null_strategy_sends_nothing :
  forall generateContent strategy ratio imgs log,
    isNullish strategy = true ->
    generateThumbnailImage generateContent strategy ratio imgs log
    = (Rejected (TypeError (cannotRead strategy "visualElements")), log).
Proof.
  intros gc strategy ratio imgs log H.
  rewrite (generateThumbnailImage_no_call gc _ _ _ _ _
             (promptText_rejected strategy ratio H)).
  destruct strategy; try discriminate; reflexivity.
Qed.

Lemma render_null_strategy_sends_nothing_witness :
  generateThumbnailImage (Examples.answering Examples.withPicture)
    JUndefined "4:3" [Examples.photo] []
  = (Rejected (TypeError "Cannot read properties of undefined (reading 'visualElements')"),
     []).
Proof.
  apply (render_null_strategy_sends_nothing (Examples.answering Examples.withPicture)
           JUndefined "4:3" [Examples.photo] []).
  reflexivity.
Defined.

(** X15.  A successful render clears the error; and when there is no
    current result, it creates one from the strategy it was given and the
    new image. *)
Theorem render_success_clears_error :
  forall generateContent strategy st log url,
    fst (generateThumbnailImage generateContent strategy
           (AspectRatio_value (ratio (form st))) (subjectImages (form st)) log)
    = Resolved url ->
    let out := renderImageOnly generateContent strategy st log in
    error (fst out) = None
    /\ loadingPhase (fst out) = idle
    /\ (result st = None ->
        result (fst out) = Some (mkResult strategy (Some url))).
Proof.
  intros gc strategy st log url H; cbv zeta.
  rewrite Orchestrator.renderImageOnly_run; cbv zeta; cbn [fst]. rewrite H; cbn.
  repeat split. now intros ->.
Qed.

Lemma render_success_clears_error_witness :
  let st := mkState idle None (Some "an earlier error") Examples.filledForm in
  let out := renderImageOnly (Examples.answering Examples.withPicture)
               Examples.sampleStrategy st [] in
  error (fst out) = None
  /\ loadingPhase (fst out) = idle
  /\ result (fst out)
     = Some (mkResult Examples.sampleStrategy
               (Some "data:image/png;base64,iVBORw0KGgo=")).
Proof.
  cbv zeta.
  pose proof (render_success_clears_error (Examples.answering Examples.withPicture)
                Examples.sampleStrategy
                (mkState idle None (Some "an earlier error") Examples.filledForm) []
                "data:image/png;base64,iVBORw0KGgo=" eq_refl) as H.
  cbv zeta in H. destruct H as (H1 & H2 & H3).
  split; [exact H1|]. split; [exact H2|]. apply H3. reflexivity.
Defined.

(** X16.  When the image provider rejects the request of a render with an
    error whose message contains [SAFETY], the error shown is the
    safety-block text, the current result is left as it was, and the phase
    is idle. *)
Theorem safety_block_is_shown :
  forall generateContent strategy st log p e,
    promptText strategy (AspectRatio_value (ratio (form st))) = Resolved p ->
    generateContent log
      (imageRequest p (AspectRatio_value (ratio (form st))) (subjectImages (form st)))
    = Rejected e ->
    includes (message e) "SAFETY" = true ->
    let out := renderImageOnly generateContent strategy st log in
    error (fst out)
    = Some "Safety Block: The content or subject image triggered safety filters. Try a different concept."
    /\ result (fst out) = result st
    /\ loadingPhase (fst out) = idle.
Proof.
  intros gc strategy st log p e Hp Hr Hs; cbv zeta.
  rewrite Orchestrator.renderImageOnly_run; cbv zeta.
  rewrite (generateThumbnailImage_run gc _ _ _ _ _ Hp), Hr.
  cbn [fst bind tryCatch]. unfold onRenderError. rewrite Hs. repeat split.
Qed.

Lemma safety_block_is_shown_witness :
  let st := Examples.holding (mkResult Examples.sampleStrategy None)
              Examples.filledForm in
  let out := renderImageOnly (Examples.rejecting Examples.safetyFailure)
               Examples.sampleStrategy st [] in
  error (fst out)
  = Some "Safety Block: The content or subject image triggered safety filters. Try a different concept."
  /\ result (fst out) = Some (mkResult Examples.sampleStrategy None)
  /\ loadingPhase (fst out) = idle.
Proof.
  cbv zeta.
  destruct (promptText Examples.sampleStrategy "16:9") as [p|e] eqn:Hp;
    [|discriminate].
  refine (safety_block_is_shown (Examples.rejecting Examples.safetyFailure)
            Examples.sampleStrategy
            (Examples.holding (mkResult Examples.sampleStrategy None)
                              Examples.filledForm)
            [] p Examples.safetyFailure Hp _ _); reflexivity.
Defined.

Lemma renderImageOnly_keeps_strategy generateContent strategy st log r :
  result st = Some r ->
  exists r',
    result (fst (renderImageOnly generateContent strategy st log)) = Some r'
    /\ Types.strategy r' = Types.strategy r.
Proof.
  intros Hr. rewrite Orchestrator.renderImageOnly_run; cbv zeta; cbn [fst].
  destruct (fst (generateThumbnailImage _ _ _ _ _)) as [url|e];
    cbn [result]; rewrite Hr; cbn [attachImage]; eauto.
Qed.

(** X17.  However many times in a row [renderImageOnly] runs, with whatever
    strategy argument and provider, a current result keeps the strategy it
    holds: only its image can change. *)
Theorem rerender_keeps_strategy :
  forall generateContent n strategy st log r,
    result st = Some r ->
    exists r',
      result (fst (reRender generateContent n strategy st log)) = Some r'
      /\ Types.strategy r' = Types.strategy r.
Proof.
  intros gc n strategy; induction n as [|n IH]; intros st log r Hr;
    cbn [reRender].
  - exists r; split; [exact Hr | reflexivity].
  - destruct (renderImageOnly_keeps_strategy gc strategy st log r Hr)
      as (r1 & H1 & E1).
    destruct (renderImageOnly gc strategy st log) as [st' log'].
    cbn [fst] in H1.
    destruct (IH st' log' r1 H1) as (r2 & H2 & E2).
    exists r2; split; [exact H2 | congruence].
Qed.

Lemma rerender_keeps_strategy_witness :
  exists r',
    result (fst (reRender (Examples.answering Examples.withPicture) 3
                   Scenarios.fullStrategy
                   (Examples.holding (mkResult Examples.sampleStrategy None)
                                     Examples.filledForm) []))
    = Some r'
    /\ Types.strategy r' = Examples.sampleStrategy.
Proof.
  apply (rerender_keeps_strategy (Examples.answering Examples.withPicture) 3
           Scenarios.fullStrategy
           (Examples.holding (mkResult Examples.sampleStrategy None)
                             Examples.filledForm)
           [] (mkResult Examples.sampleStrategy None)).
  reflexivity.
Defined.

(** X18.  After a render on a current result [r] whose cards mount (or
    whose strategy is falsy, so that no card is drawn): a success shows the
    new picture; a failure shows the retry panel for the strategy of [r]
    when [r] has no image and its strategy is truthy, and the button of that
    panel renders the strategy of [r] again; a failure leaves the picture of
    [r] on screen when [r] already had one.  When the strategy of [r] is
    truthy and its cards throw, the component is unmounted whatever the
    render gave. *)
Theorem preview_after_render :
  forall generateContent acceptsChild acceptsStyle strategy st log r,
    result st = Some r ->
    let run := generateThumbnailImage generateContent strategy
                 (AspectRatio_value (ratio (form st))) (subjectImages (form st)) log in
    let out := renderImageOnly generateContent strategy st log in
    ((truthy (Types.strategy r) = true ->
      cardsMount acceptsChild acceptsStyle (Types.strategy r) = true) ->
     (forall url, fst run = Resolved url ->
                  preview acceptsChild acceptsStyle (fst out) = Picture url)
     /\ (forall e,
           fst run = Rejected e ->
           imageUrl r = None ->
           truthy (Types.strategy r) = true ->
           preview acceptsChild acceptsStyle (fst out)
           = RetryPanel (Types.strategy r)
           /\ forall log',
                pressRetry acceptsChild acceptsStyle generateContent (fst out) log'
                = renderImageOnly generateContent (Types.strategy r) (fst out) log')
     /\ (forall e u,
           fst run = Rejected e ->
           imageUrl r = Some u ->
           u <> EmptyString ->
           preview acceptsChild acceptsStyle (fst out) = Picture u))
    /\ (truthy (Types.strategy r) = true ->
        cardsMount acceptsChild acceptsStyle (Types.strategy r) = false ->
        preview acceptsChild acceptsStyle (fst out) = Unmounted).
Proof.
  intros gc acceptsChild acceptsStyle strategy st log r Hr; cbv zeta.
  rewrite Orchestrator.renderImageOnly_run; cbv zeta; cbn [fst].
  split.
  - intros M. split; [|split].
    + intros url H. pose proof (render_url_not_empty gc _ _ _ _ _ H) as N.
      rewrite H, Hr. rewrite preview_mounted.
      * unfold pictureArea; cbn. now rewrite N.
      * intros r' [= <-]. exact M.
    + intros e H Hi T. rewrite H.
      assert (P : preview acceptsChild acceptsStyle
                    (mkState idle (result st)
                       (Some (orString (message e) RENDER_FALLBACK)) (form st))
                  = RetryPanel (Types.strategy r)).
      { rewrite preview_mounted.
        - unfold pictureArea; cbn. rewrite Hr, Hi; cbn. now rewrite T.
        - cbn [result]. rewrite Hr. intros r' [= <-]. exact M. }
      split; [exact P|]. intros log'. unfold pressRetry. now rewrite P.
    + intros e u H Hi N. rewrite H. rewrite preview_mounted.
      * unfold pictureArea; cbn. rewrite Hr, Hi; cbn.
        now rewrite (Orchestrator.isEmpty_false _ N).
      * cbn [result]. rewrite Hr. intros r' [= <-]. exact M.
  - intros T C.
    destruct (fst (generateThumbnailImage gc strategy _ _ log)) as [url|e].
    + apply (preview_unmounted _ _ _ (mkResult (Types.strategy r) (Some url)));
        [cbn [result]; now rewrite Hr | exact T | exact C].
    + apply (preview_unmounted _ _ _ r); [exact Hr | exact T | exact C].
Qed.

Lemma preview_after_render_witness :
  let st := Examples.holding (mkResult Examples.sampleStrategy None)
              Examples.filledForm in
  preview Scenarios.refusesObjects convertible
    (fst (renderImageOnly (Examples.answering Examples.withPicture)
            Examples.sampleStrategy st []))
  = Picture "data:image/png;base64,iVBORw0KGgo="
  /\ preview Scenarios.refusesObjects convertible
       (fst (renderImageOnly (Examples.rejecting Examples.quotaFailure)
               Examples.sampleStrategy st []))
     = RetryPanel Examples.sampleStrategy
  /\ preview Scenarios.refusesObjects convertible
       (fst (renderImageOnly (Examples.answering Examples.withPicture)
               Scenarios.blankArrays
               (Examples.holding (mkResult Scenarios.blankArrays None)
                                 Examples.filledForm) []))
     = Unmounted.
Proof.
  cbv zeta. split; [|split].
  - pose proof (preview_after_render (Examples.answering Examples.withPicture)
                  Scenarios.refusesObjects convertible
                  Examples.sampleStrategy
                  (Examples.holding (mkResult Examples.sampleStrategy None)
                                    Examples.filledForm)
                  [] (mkResult Examples.sampleStrategy None) eq_refl) as H.
    cbv zeta in H. destruct H as (H & _).
    destruct (H (fun _ => eq_refl)) as (Hok & _ & _).
    apply (Hok "data:image/png;base64,iVBORw0KGgo="). reflexivity.
  - pose proof (preview_after_render (Examples.rejecting Examples.quotaFailure)
                  Scenarios.refusesObjects convertible
                  Examples.sampleStrategy
                  (Examples.holding (mkResult Examples.sampleStrategy None)
                                    Examples.filledForm)
                  [] (mkResult Examples.sampleStrategy None) eq_refl) as H.
    cbv zeta in H. destruct H as (H & _).
    destruct (H (fun _ => eq_refl)) as (_ & Hfail & _).
    apply (Hfail Examples.quotaFailure); reflexivity.
  - pose proof (preview_after_render (Examples.answering Examples.withPicture)
                  Scenarios.refusesObjects convertible
                  Scenarios.blankArrays
                  (Examples.holding (mkResult Scenarios.blankArrays None)
                                    Examples.filledForm)
                  [] (mkResult Scenarios.blankArrays None) eq_refl) as H.
    cbv zeta in H. destruct H as (_ & H). apply H; reflexivity.
Defined.

(** X19.  The [Visual Flow] line of a strategy document reads
    [strategically] when [layoutInstructions.arrowDirections] is absent or
    falsy; when it is an array, it reads the elements joined with [ & ] (or
    [strategically] when they join to the empty string) if the elements can
    be converted to strings, and cannot be built otherwise; and it cannot be
    built, with a type error, when it is any other truthy value: unlike the
    renderer, the view does not test for an array. *)
Theorem arrows_text_needs_an_array :
  forall strategy,
    isNullish strategy = false ->
    let directions := nested strategy "layoutInstructions" "arrowDirections" in
    (truthy directions = false -> arrowsText strategy = Resolved "strategically")
    /\ (forall l text,
          directions = JArray l ->
          join l " & " = Resolved text ->
          arrowsText strategy = Resolved (orString text "strategically"))
    /\ (forall l,
          directions = JArray l ->
          (forallb convertible l = true -> exists text, join l " & " = Resolved text)
          /\ (forallb convertible l = false ->
              arrowsText strategy = Rejected CANNOT_CONVERT))
    /\ (truthy directions = true ->
        isArray directions = false ->
        exists e, arrowsText strategy = Rejected e /\ name e = "TypeError").
Proof.
  intros strategy H; cbv zeta; unfold arrowsText.
  rewrite (chain_resolved _ _ _ H); cbn [bind].
  split; [|split; [|split]].
  - intros F. rewrite (Prompts.or_falsy _ _ F). reflexivity.
  - intros l text -> J. cbn [or truthy callJoin]. now rewrite J.
  - intros l ->. pose proof (join_conversion l " & ") as C.
    split; intros E; rewrite E in C; cbn [conversion] in C; [exact C|].
    cbn [or truthy callJoin]. now rewrite C.
  - intros T A. unfold or; rewrite T.
    destruct (nested strategy "layoutInstructions" "arrowDirections");
      try discriminate; cbn; eauto.
Qed.

Lemma arrows_text_needs_an_array_witness :
  arrowsText Examples.sampleStrategy = Resolved "strategically"
  /\ arrowsText Scenarios.fullStrategy = Resolved "towards text & towards face"
  /\ exists e, arrowsText Scenarios.blankArrays = Rejected e /\ name e = "TypeError".
Proof.
  split; [|split].
  - pose proof (arrows_text_needs_an_array Examples.sampleStrategy eq_refl) as H.
    cbv zeta in H. destruct H as (H & _ & _ & _). apply H. reflexivity.
  - pose proof (arrows_text_needs_an_array Scenarios.fullStrategy eq_refl) as H.
    cbv zeta in H. destruct H as (_ & H & _ & _).
    apply (H [JString "towards text"; JString "towards face"]
             "towards text & towards face"); reflexivity.
  - pose proof (arrows_text_needs_an_array Scenarios.blankArrays eq_refl) as H.
    cbv zeta in H. destruct H as (_ & _ & _ & H). apply H; reflexivity.
Defined.

(** X20.  A render on a strategy whose prompt is built issues one request
    to the image model, with the form's current ratio (one of the four
    ratio strings) as [aspectRatio], and with the prompt followed by one
    inline part per reference image of the form, in order. *)
Theorem render_sends_form_ratio_and_images :
  forall generateContent strategy st log p,
    promptText strategy (AspectRatio_value (ratio (form st))) = Resolved p ->
    exists request,
      snd (renderImageOnly generateContent strategy st log) = log ++ [request]
      /\ GenAI.model request = IMAGE_MODEL
      /\ GenAI.config request
         = GenAI.ImageConfig (AspectRatio_value (ratio (form st)))
      /\ In (AspectRatio_value (ratio (form st))) ["16:9"; "9:16"; "1:1"; "4:3"]
      /\ sentParts request
         = GenAI.mkPart (Some p) None :: map inlinePart (subjectImages (form st)).
Proof.
  intros gc strategy st log p Hp.
  eexists; split.
  - rewrite Orchestrator.renderImageOnly_run; cbv zeta; cbn [snd].
    rewrite (generateThumbnailImage_run gc _ _ _ _ _ Hp); cbn [snd]. reflexivity.
  - split; [reflexivity|]. split; [reflexivity|]. split.
    + destruct (ratio (form st)); cbn; auto.
    + unfold sentParts, imageRequest; cbn [GenAI.contents GenAI.parts].
      now rewrite pushImages_map.
Qed.

Lemma render_sends_form_ratio_and_images_witness :
  exists p request,
    promptText Examples.sampleStrategy "16:9" = Resolved p
    /\ snd (renderImageOnly (Examples.answering Examples.withPicture)
              Examples.sampleStrategy (Examples.initial Examples.noNiche) [])
       = [] ++ [request]
    /\ GenAI.model request = IMAGE_MODEL
    /\ GenAI.config request = GenAI.ImageConfig "16:9"
    /\ In "16:9" ["16:9"; "9:16"; "1:1"; "4:3"]
    /\ sentParts request
       = GenAI.mkPart (Some p) None :: map inlinePart [Examples.photo].
Proof.
  destruct (promptText Examples.sampleStrategy "16:9") as [p|e] eqn:Hp;
    [|discriminate].
  destruct (render_sends_form_ratio_and_images
              (Examples.answering Examples.withPicture) Examples.sampleStrategy
              (Examples.initial Examples.noNiche) [] p Hp) as (request & H).
  exists p, request. split; [reflexivity | exact H].
Defined.

(** X21.  [n] renders in a row of a strategy whose prompt is built issue
    exactly [n] requests, all equal: the same prompt, the same ratio and
    the same reference images each time, whatever the provider answered in
    between. *)
Theorem rerender_repeats_the_request :
  forall generateContent n strategy st log p,
    promptText strategy (AspectRatio_value (ratio (form st))) = Resolved p ->
    snd (reRender generateContent n strategy st log)
    = log ++ repeat (imageRequest p (AspectRatio_value (ratio (form st)))
                       (subjectImages (form st))) n
    /\ List.length (snd (reRender generateContent n strategy st log))
       = List.length log + n.
Proof.
  intros gc n strategy st log p Hp.
  pose proof (Orchestrator.rerender_requests gc n strategy p st log Hp) as E.
  split; [exact E|]. rewrite E, length_app, repeat_length. reflexivity.
Qed.

Lemma rerender_repeats_the_request_witness :
  exists p,
    promptText Examples.sampleStrategy "16:9" = Resolved p
    /\ snd (reRender (Examples.rejecting Examples.quotaFailure) 3
              Examples.sampleStrategy (Examples.initial Examples.noNiche) [])
       = [] ++ repeat (imageRequest p "16:9" [Examples.photo]) 3.
Proof.
  destruct (promptText Examples.sampleStrategy "16:9") as [p|e] eqn:Hp;
    [|discriminate].
  exists p. split; [reflexivity|].
  apply (rerender_repeats_the_request (Examples.rejecting Examples.quotaFailure) 3
           Examples.sampleStrategy (Examples.initial Examples.noNiche) [] p Hp).
Defined.

Lemma afterFirstComma_app (header rest : string) :
  afterFirstComma header = None ->
  afterFirstComma (header ++ String comma rest) = Some rest.
Proof.
  induction header as [|c header IH]; cbn [append afterFirstComma].
  - now rewrite Ascii.eqb_refl.
  - destruct (Ascii.eqb c comma); [discriminate | exact IH].
Qed.

(** X22.  For a reference image whose data is a header, a comma and a
    payload, with no comma in the header nor in the payload (the shape of a
    base64 data URL), the part attached by the synthesizer and by the
    renderer carries exactly the payload and the image's media type. *)
Theorem data_url_payload_is_sent :
  forall header payload mime,
    afterFirstComma header = None ->
    afterFirstComma payload = None ->
    inlinePart (mkImage (header ++ "," ++ payload) mime)
    = GenAI.mkPart None (Some (GenAI.mkBlob (Some payload) mime)).
Proof.
  intros header payload mime Hh Hp; unfold inlinePart; cbn [data mimeType].
  rewrite Renderer.split_second.
  change ("," ++ payload)%string with (String comma payload).
  rewrite (afterFirstComma_app _ _ Hh); cbn [option_map].
  now rewrite (Renderer.beforeFirstComma_no_comma _ Hp).
Qed.

Lemma data_url_payload_is_sent_witness :
  inlinePart (mkImage ("data:image/jpeg;base64" ++ "," ++ "QUJD") "image/jpeg")
  = GenAI.mkPart None (Some (GenAI.mkBlob (Some "QUJD") "image/jpeg")).
Proof.
  apply (data_url_payload_is_sent "data:image/jpeg;base64" "QUJD" "image/jpeg");
    reflexivity.
Defined.

End Pipeline.
